(** * Twitter bookmark analytics: loader, classifier, word-frequency
      analyser and chart builders

    A shallow embedding of [utils/data_logger.py] and
    [utils/visualizations.py].  Python strings are sequences of Unicode
    code points; exceptions are values of a result type; the calls into
    pandas, MeCab, NLTK and plotly are interfaces (type classes) whose
    members are named after the calls they stand for. *)

From Stdlib Require Import String Ascii DecimalString.
From Stdlib Require Import List ZArith NArith Bool Lia.
From Stdlib Require Import Sorting.Sorted Sorting.Permutation.
Import ListNotations.

(* ================================================================== *)
(** * Part I: the embedding *)
(* ================================================================== *)

(** ** Python [str]: a sequence of code points *)

Definition pystr := list N.

(** Literals are written in UTF-8 in this file and decoded here. *)
Fixpoint utf8_decode (bs : list N) : pystr :=
  match bs with
  | [] => []
  | b0 :: r0 =>
      if (b0 <? 128)%N then b0 :: utf8_decode r0
      else if (b0 <? 224)%N then
        match r0 with
        | b1 :: r1 => ((b0 - 192) * 64 + (b1 - 128))%N :: utf8_decode r1
        | _ => []
        end
      else if (b0 <? 240)%N then
        match r0 with
        | b1 :: b2 :: r2 =>
            ((b0 - 224) * 4096 + (b1 - 128) * 64 + (b2 - 128))%N
              :: utf8_decode r2
        | _ => []
        end
      else
        match r0 with
        | b1 :: b2 :: b3 :: r3 =>
            ((b0 - 240) * 262144 + (b1 - 128) * 4096
             + (b2 - 128) * 64 + (b3 - 128))%N :: utf8_decode r3
        | _ => []
        end
  end.

Definition u (s : string) : pystr :=
  utf8_decode (map N_of_ascii (list_ascii_of_string s)).

Fixpoint pystr_eqb (a b : pystr) : bool :=
  match a, b with
  | [], [] => true
  | x :: a', y :: b' => (x =? y)%N && pystr_eqb a' b'
  | _, _ => false
  end.

(** [w in l] for a list or set of strings. *)
Definition mem (w : pystr) (l : list pystr) : bool := existsb (pystr_eqb w) l.

(** [s.startswith(p)] *)
Fixpoint startswith (s p : pystr) : bool :=
  match p, s with
  | [], _ => true
  | _ :: _, [] => false
  | a :: p', b :: s' => (a =? b)%N && startswith s' p'
  end.

(** [k in s] for two strings: substring containment. *)
Fixpoint contains (s k : pystr) : bool :=
  startswith s k || match s with [] => false | _ :: s' => contains s' k end.

(** The same, as a proposition. *)
Definition occurs_in (k s : pystr) : Prop :=
  exists pre post, s = pre ++ k ++ post.

(** [sep.join(l)] *)
Fixpoint join (sep : pystr) (l : list pystr) : pystr :=
  match l with
  | [] => []
  | [x] => x
  | x :: r => x ++ sep ++ join sep r
  end.

(** [c.isascii()] *)
Definition isascii (c : N) : bool := (c <? 128)%N.

(** The Unicode character database behind [str.lower], [str.isspace],
    [str.isdigit] and the regex classes [\w] and [\s]. *)
Class Unicode := {
  isspace : N -> bool;
  isalnum : N -> bool;
  isdigit : N -> bool;
  lower : pystr -> pystr;
  isspace_SPACE : isspace 32 = true
}.

Section Strings.
Context {UCD : Unicode}.

(** [s.isdigit()]: non-empty and every character a digit. *)
Definition str_isdigit (s : pystr) : bool :=
  match s with [] => false | _ => forallb isdigit s end.

Fixpoint lstrip (s : pystr) : pystr :=
  match s with
  | c :: r => if isspace c then lstrip r else s
  | [] => []
  end.

(** [s.strip()] *)
Definition strip (s : pystr) : pystr := rev (lstrip (rev (lstrip s))).

(** [s.split()]: maximal runs of non-whitespace characters.  [cur] is
    the run being read, reversed. *)
Fixpoint split_from (cur : pystr) (s : pystr) : list pystr :=
  match s with
  | [] => match cur with [] => [] | _ => [rev cur] end
  | c :: r =>
      if isspace c
      then match cur with
           | [] => split_from [] r
           | _ => rev cur :: split_from [] r
           end
      else split_from (c :: cur) r
  end.

Definition split (s : pystr) : list pystr := split_from [] s.

(** States of the scan that removes the matches of
    [http\S+|www.\S+]: looking for a match, or inside one with [n]
    characters of it still to be dropped before the greedy tail
    [\S*] begins. *)
Inductive url_state := Scan | Drop (n : nat).

(** Does a match of [http\S+|www.\S+] start at the head of [s]? *)
Definition url_starts (s : pystr) : bool :=
  match s with
  | 104 :: 116 :: 116 :: 112 :: c :: _ => negb (isspace c)
  | 119 :: 119 :: 119 :: d :: c :: _ => negb (d =? 10) && negb (isspace c)
  | _ => false
  end%N.

(** [re.sub(r"http\S+|www.\S+", "", s)] *)
Fixpoint sub_urls (st : url_state) (s : pystr) : pystr :=
  match s with
  | [] => []
  | c :: r =>
      let scan :=
        if url_starts s then sub_urls (Drop 4) r else c :: sub_urls Scan r in
      match st with
      | Scan => scan
      | Drop (S n) => sub_urls (Drop n) r
      | Drop O => if isspace c then scan else sub_urls (Drop O) r
      end
  end.

(** The regex class [[\w\s]]. *)
Definition is_word_or_space (c : N) : bool :=
  isalnum c || (c =? 95)%N || isspace c.

(** [_preprocess_text] *)
Definition _preprocess_text (text : pystr) : pystr :=
  let text := sub_urls Scan text in
  filter is_word_or_space text.
End Strings.

(** ** Exceptions and results *)

Inductive exn_class :=
| Exception | TypeError | ValueError | LookupError | KeyError | OSError
| FileNotFoundError | RuntimeError | AttributeError | UnicodeDecodeError
| EmptyDataError | ParserError
| OtherError (name : string).

(** The direct base class; [pandas.errors.EmptyDataError] and
    [pandas.errors.ParserError] derive from [ValueError]. *)
Definition base_class (c : exn_class) : option exn_class :=
  match c with
  | Exception => None
  | KeyError => Some LookupError
  | FileNotFoundError => Some OSError
  | UnicodeDecodeError | EmptyDataError | ParserError => Some ValueError
  | _ => Some Exception
  end.

Definition exn_class_eqb (c d : exn_class) : bool :=
  match c, d with
  | Exception, Exception | TypeError, TypeError | ValueError, ValueError
  | LookupError, LookupError | KeyError, KeyError | OSError, OSError
  | FileNotFoundError, FileNotFoundError | RuntimeError, RuntimeError
  | AttributeError, AttributeError | UnicodeDecodeError, UnicodeDecodeError
  | EmptyDataError, EmptyDataError | ParserError, ParserError => true
  | OtherError a, OtherError b => String.eqb a b
  | _, _ => false
  end.

Fixpoint issubclass_fuel (fuel : nat) (c d : exn_class) : bool :=
  exn_class_eqb c d ||
  match fuel, base_class c with
  | S f, Some b => issubclass_fuel f b d
  | _, _ => false
  end.

(** The hierarchy above has depth 3. *)
Definition issubclass (c d : exn_class) : bool := issubclass_fuel 3 c d.

(** A raised exception: its class and [str(e)]. *)
Record exn := mkExn { exn_cls : exn_class; exn_str : pystr }.

Definition isinstance_exn (e : exn) (c : exn_class) : bool :=
  issubclass (exn_cls e) c.

Inductive result (A : Type) :=
| Ok (a : A)
| Raise (e : exn).
Arguments Ok {A} a.
Arguments Raise {A} e.

Definition bind {A B} (m : result A) (k : A -> result B) : result B :=
  match m with
  | Ok a => k a
  | Raise e => Raise e
  end.

(** ** Python values that reach the functions *)

Inductive scalar :=
| SNone
| SNaN
| SBool (b : bool)
| SInt (z : Z)
| SStr (s : pystr).

(** [pd.isna] and [pd.notna] on a scalar. *)
Definition pd_isna (x : scalar) : bool :=
  match x with SNone | SNaN => true | _ => false end.
Definition pd_notna (x : scalar) : bool := negb (pd_isna x).

(** [str(x)] *)
Definition py_str (x : scalar) : pystr :=
  match x with
  | SNone => u "None"
  | SNaN => u "nan"
  | SBool true => u "True"
  | SBool false => u "False"
  | SInt z => u (NilZero.string_of_int (Z.to_int z))
  | SStr s => s
  end.

(** ** [data_logger.py]: the classifier *)

Definition TECH_KEYWORDS : list pystr :=
  [ u "python"; u "javascript"; u "programming"; u "code"; u "developer";
    u "tech"; u "cybersecurity"; u "security"; u "it"; u "software";
    u "web"; u "api"; u "data"; u "github"; u "docker"; u "cloud"; u "ai";
    u "ml"; u "database"; u "dev"; u "coding";
    u "プログラミング"; u "エンジニア"; u "コード"; u "セキュリティ";
    u "機械学習"; u "クラウド"; u "クラウドコンピューティング";
    u "キャリア"; u "セキュリティ対策" ].

Definition TECHNOLOGY : pystr := u "テクノロジー".
Definition OTHER : pystr := u "その他".

(** ** Data frames *)

Record datetime := mkDatetime {
  dt_year : Z; dt_month : Z; dt_day : Z;
  dt_hour : Z; dt_minute : Z; dt_second : Z
}.

(** A value of dtype [datetime64]: a point in time or the null [NaT]. *)
Inductive timestamp :=
| NaT
| Timestamp (d : datetime).

Inductive cell :=
| CNaN
| CStr (s : pystr)
| CTime (t : timestamp).

Record DataFrame := mkDataFrame {
  columns : list pystr;
  rows : list (list cell)
}.

(** Every object a caller can pass where a frame, a list or a Series is
    expected. *)
Inductive pyobj :=
| ObjScalar (x : scalar)
| ObjList (l : list scalar)
| ObjTuple (l : list scalar)
| ObjSeries (l : list scalar)
| ObjDict (keys : list pystr)
| ObjDataFrame (df : DataFrame).

(** [categorize_tech] *)
Definition categorize_tech {UCD : Unicode} (text : pyobj) : pystr :=
  match text with
  | ObjScalar (SStr s as x) =>
      if pd_isna x then OTHER
      else
        let text_lower := lower s in
        if existsb (fun keyword => contains text_lower keyword) TECH_KEYWORDS
        then TECHNOLOGY
        else OTHER
  | _ => OTHER
  end.

Fixpoint index_of (name : pystr) (l : list pystr) : option nat :=
  match l with
  | [] => None
  | x :: r =>
      if pystr_eqb x name then Some O
      else match index_of name r with Some i => Some (S i) | None => None end
  end.

(** [df[name]] *)
Definition getitem (df : DataFrame) (name : pystr) : result (list cell) :=
  match index_of name (columns df) with
  | Some i => Ok (map (fun r => nth i r CNaN) (rows df))
  | None => Raise (mkExn KeyError (u "'" ++ name ++ u "'"))
  end.

Fixpoint replace_nth (i : nat) (v : cell) (r : list cell) : list cell :=
  match i, r with
  | O, _ :: r' => v :: r'
  | S i', x :: r' => x :: replace_nth i' v r'
  | _, [] => []
  end.

Fixpoint zip_with {A B C} (f : A -> B -> C) (l : list A) (m : list B)
  : list C :=
  match l, m with
  | a :: l', b :: m' => f a b :: zip_with f l' m'
  | _, _ => []
  end.

(** [df[name] = col], for a column of the frame's own length. *)
Definition setitem (df : DataFrame) (name : pystr) (col : list cell)
  : DataFrame :=
  match index_of name (columns df) with
  | Some i =>
      {| columns := columns df;
         rows := zip_with (fun r v => replace_nth i v r) (rows df) col |}
  | None =>
      {| columns := columns df ++ [name];
         rows := zip_with (fun r v => r ++ [v]) (rows df) col |}
  end.

(** ** The pandas calls of the loader *)

(** What pandas decides outside this repository: how one string is read
    as a date-time ([pd.to_datetime], which yields [NaT] for the strings
    it reads as null and raises on those it cannot read), the texts of
    its own error messages, whether the name
    [pandas.errors.ResampleError] used by a handler resolves, and the
    column names it makes of a header line ([dedup_names]: a repeated
    name gets a suffix [.1], [.2], ..., an empty one becomes
    [Unnamed: i]).  Of the naming two facts are used: it keeps the
    number of columns, and a name that is not empty and holds neither
    [.] nor [:] (no made-up name is such a name) is a column exactly
    when it stands in the header line. *)
Class Pandas := {
  parse_datetime : pystr -> result timestamp;
  msg_no_such_file : pystr -> pystr;
  msg_no_columns : pystr;
  msg_bad_line : nat -> nat -> nat -> pystr;
  errors_ResampleError : option exn_class;
  dedup_names : list pystr -> list pystr;
  dedup_names_length :
    forall header, length (dedup_names header) = length header;
  dedup_names_plain :
    forall header name,
      name <> [] -> ~ In 46%N name -> ~ In 58%N name ->
      (In name (dedup_names header) <-> In name header)
}.

(** A CSV resource after lexing: its non-blank lines as lists of
    fields, the header first.  [HeaderOnly header e] is a file whose
    header line can be read and whose data cannot: the full read
    raises [e] (bytes that do not decode, for one). *)
Inductive resource :=
| Missing
| Unreadable (e : exn)
| Csv (lines : list (list pystr))
| HeaderOnly (header : list pystr) (e : exn).

(** The header line of a resource that has one. *)
Definition header_line (r : resource) : option (list pystr) :=
  match r with
  | Csv (header :: _) => Some header
  | HeaderOnly header _ => Some header
  | _ => None
  end.

Definition filesystem := pystr -> resource.

(** The reads a call performs, in order. *)
Inductive io_event :=
| ReadHeader (path : pystr)
| ReadAll (path : pystr).

(** Computations that read files: the log of reads is threaded
    through, the outcome is a value or a raised exception. *)
Definition IO (A : Type) := list io_event -> result A * list io_event.

Definition ret {A} (a : A) : IO A := fun log => (Ok a, log).
Definition raise {A} (e : exn) : IO A := fun log => (Raise e, log).
Definition bindIO {A B} (m : IO A) (k : A -> IO B) : IO B :=
  fun log =>
    match m log with
    | (Ok a, log') => k a log'
    | (Raise e, log') => (Raise e, log')
    end.
Definition try_except {A} (m : IO A) (handler : exn -> IO A) : IO A :=
  fun log =>
    match m log with
    | (Ok a, log') => (Ok a, log')
    | (Raise e, log') => handler e log'
    end.
Definition lift {A} (r : result A) : IO A := fun log => (r, log).

Notation "x <- m ;; k" := (bindIO m (fun x => k))
  (at level 61, m at next level, right associativity).

(** pandas' default strings read as missing values. *)
Definition STR_NA_VALUES : list pystr :=
  [ u ""; u "#N/A"; u "#N/A N/A"; u "#NA"; u "-1.#IND"; u "-1.#QNAN";
    u "-NaN"; u "-nan"; u "1.#IND"; u "1.#QNAN"; u "<NA>"; u "N/A";
    u "NA"; u "NULL"; u "NaN"; u "None"; u "n/a"; u "nan"; u "null" ].

Definition to_cell (field : pystr) : cell :=
  if mem field STR_NA_VALUES then CNaN else CStr field.

Definition pad (width : nat) (r : list cell) : list cell :=
  r ++ repeat CNaN (width - length r).

(** The first line after the first data line that has more fields than
    the table is wide, with its position among the data lines. *)
Fixpoint find_bad_line (width : nat) (i : nat) (data : list (list pystr))
  : option (nat * nat) :=
  match data with
  | [] => None
  | r :: data' =>
      if (width <? length r)%nat then Some (i, length r)
      else find_bad_line width (S i) data'
  end.

Section Loader.
Context {PD : Pandas}.
Variable fs : filesystem.

(** Opening the file and reading its header line. *)
Definition open_header (path : pystr) : result (list pystr) :=
  match fs path with
  | Missing => Raise (mkExn FileNotFoundError (msg_no_such_file path))
  | Unreadable e => Raise e
  | Csv [] => Raise (mkExn EmptyDataError msg_no_columns)
  | Csv (header :: _) => Ok header
  | HeaderOnly header _ => Ok header
  end.

(** Opening the file and reading all its lines. *)
Definition open_csv (path : pystr) : result (list pystr * list (list pystr)) :=
  match fs path with
  | Missing => Raise (mkExn FileNotFoundError (msg_no_such_file path))
  | Unreadable e => Raise e
  | Csv [] => Raise (mkExn EmptyDataError msg_no_columns)
  | Csv (header :: data) => Ok (header, data)
  | HeaderOnly _ e => Raise e
  end.

(** [pd.read_csv(path, nrows=0)]: the header alone. *)
Definition read_csv_nrows0 (path : pystr) : IO DataFrame :=
  fun log =>
    (bind (open_header path)
       (fun header => Ok {| columns := dedup_names header; rows := [] |}),
     log ++ [ReadHeader path]).

(** [pd.read_csv(path, on_bad_lines='error', delimiter=',')].  The
    columns are named as pandas names them from the header line.  The
    first data line fixes the width of the table (fields beyond the
    header's are leading index columns); a later line with more
    fields is an error, a shorter one is filled with NaN. *)
Definition read_csv (path : pystr) : IO DataFrame :=
  fun log =>
    (bind (open_csv path)
       (fun '(header, data) =>
          let width :=
            match data with
            | [] => length header
            | r :: _ => Nat.max (length header) (length r)
            end in
          match find_bad_line width 1 (tl data) with
          | Some (i, saw) =>
              Raise (mkExn ParserError (msg_bad_line width i saw))
          | None =>
              Ok {| columns := dedup_names header;
                    rows := map (fun r =>
                                   skipn (width - length header)
                                     (pad width (map to_cell r)))
                                data |}
          end),
     log ++ [ReadAll path]).

Definition to_datetime_cell (c : cell) : result cell :=
  match c with
  | CNaN => Ok (CTime NaT)
  | CStr s => bind (parse_datetime s) (fun t => Ok (CTime t))
  | CTime t => Ok (CTime t)
  end.

(** [pd.to_datetime(column)] *)
Fixpoint to_datetime (col : list cell) : result (list cell) :=
  match col with
  | [] => Ok []
  | c :: col' =>
      bind (to_datetime_cell c) (fun c' =>
      bind (to_datetime col') (fun col'' => Ok (c' :: col'')))
  end.

Definition REQUIRED_COLUMNS : list pystr :=
  [ u "tweeted_at"; u "screen_name"; u "full_text" ].

(** [load_data] *)
Definition load_data (file_path : pystr) : IO DataFrame :=
  _ <- try_except
         (header_df <- read_csv_nrows0 file_path ;;
          let missing_columns :=
            filter (fun col => negb (mem col (columns header_df)))
                   REQUIRED_COLUMNS in
          match missing_columns with
          | _ :: _ =>
              raise (mkExn ParserError
                       (u "必須カラムが不足しています: "
                          ++ join (u ", ") missing_columns))
          | [] => ret header_df
          end)
         (fun e =>
            if isinstance_exn e EmptyDataError then raise e
            else if isinstance_exn e ParserError then raise e
            else if isinstance_exn e FileNotFoundError then raise e
            else raise (mkExn ParserError (exn_str e))) ;;
  bookmark_df <- try_except (read_csv file_path) (fun e => raise e) ;;
  try_except
    (col <- lift (getitem bookmark_df (u "tweeted_at")) ;;
     col' <- lift (to_datetime col) ;;
     ret (setitem bookmark_df (u "tweeted_at") col'))
    (fun e =>
       let error_msg := u "日時データの変換に失敗しました: " ++ exn_str e in
       raise (mkExn ValueError error_msg)).
End Loader.

(** ** [visualizations.py]: validation and the chart builders *)

(** [repr] of a list of strings that hold no quote and no escape. *)
Definition repr_list (l : list pystr) : pystr :=
  u "[" ++ join (u ", ") (map (fun s => u "'" ++ s ++ u "'") l) ++ u "]".

(** [validate_dataframe] *)
Definition validate_dataframe (df : pyobj) (required_columns : list pystr)
  : result unit :=
  match df with
  | ObjDataFrame d =>
      let missing_columns :=
        filter (fun col => negb (mem col (columns d))) required_columns in
      match missing_columns with
      | _ :: _ =>
          Raise (mkExn ValueError
                   (u "必要なカラムが存在しません: " ++ repr_list missing_columns))
      | [] => Ok tt
      end
  | _ =>
      Raise (mkExn TypeError (u "入力はpandas.DataFrameである必要があります"))
  end.

(** The charting calls: [df.resample("D", on="tweeted_at").size()] with
    [px.line] and [update_layout], and [df["category"].value_counts()]
    with [px.pie].  Either may raise. *)
Class Plotting := {
  Figure : Type;
  daily_counts_line : DataFrame -> result Figure;
  category_counts_pie : DataFrame -> result Figure
}.

Section Charts.
Context {PD : Pandas} {PL : Plotting}.

(** What the [try] block of a builder does once the frame is known
    to be one. *)
Definition on_frame (df : pyobj) (k : DataFrame -> result Figure)
  : result Figure :=
  match df with
  | ObjDataFrame d => k d
  | _ => Raise (mkExn TypeError (u "入力はpandas.DataFrameである必要があります"))
  end.

(** The [try] block of [create_time_series_plot]. *)
Definition time_series_try (df : pyobj) : result Figure :=
  bind (validate_dataframe df [u "tweeted_at"]) (fun _ =>
  on_frame df daily_counts_line).

(** [create_time_series_plot].  The second handler names
    [pd.errors.ResampleError]; the name is looked up only when the
    first handler has not matched. *)
Definition create_time_series_plot (df : pyobj) : result Figure :=
  match time_series_try df with
  | Ok fig => Ok fig
  | Raise e =>
      if isinstance_exn e TypeError || isinstance_exn e ValueError
      then Raise e
      else
        match errors_ResampleError with
        | None =>
            Raise (mkExn AttributeError
              (u "module 'pandas.errors' has no attribute 'ResampleError'"))
        | Some resample_error =>
            if isinstance_exn e resample_error then
              let error_msg :=
                u "時系列データの集計に失敗しました: " ++ exn_str e in
              Raise (mkExn ValueError error_msg)
            else
              let error_msg :=
                u "予期せぬエラーが発生しました: " ++ exn_str e in
              Raise (mkExn ValueError error_msg)
        end
  end.

(** The [try] block of [create_category_plot]. *)
Definition category_try (df : pyobj) : result Figure :=
  bind (validate_dataframe df [u "category"]) (fun _ =>
  on_frame df category_counts_pie).

(** [create_category_plot] *)
Definition create_category_plot (df : pyobj) : result Figure :=
  match category_try df with
  | Ok fig => Ok fig
  | Raise e =>
      if isinstance_exn e TypeError || isinstance_exn e ValueError
      then Raise e
      else
        let error_msg := u "予期せぬエラーが発生しました: " ++ exn_str e in
        Raise (mkExn ValueError error_msg)
  end.
End Charts.

(** ** [visualizations.py]: the word-frequency analyser *)

(** [collections.Counter] and [dict]: keys in order of first insertion. *)
Definition counter := list (pystr * Z).

(** [c[w] += 1] *)
Fixpoint counter_incr (w : pystr) (c : counter) : counter :=
  match c with
  | [] => [(w, 1%Z)]
  | (k, v) :: c' =>
      if pystr_eqb k w then (k, (v + 1)%Z) :: c'
      else (k, v) :: counter_incr w c'
  end.

(** [Counter(words)] *)
Definition Counter (words : list pystr) : counter :=
  fold_left (fun c w => counter_incr w c) words [].

(** One step of a stable sort by descending count: [x] stood before
    every element of [l], so it goes before the first element whose
    count does not exceed its own. *)
Fixpoint insert_desc (x : pystr * Z) (l : counter) : counter :=
  match l with
  | [] => [x]
  | y :: l' =>
      if (snd x <? snd y)%Z then y :: insert_desc x l' else x :: y :: l'
  end.

(** [sorted(items, key=itemgetter(1), reverse=True)] *)
Fixpoint sorted_desc (l : counter) : counter :=
  match l with
  | [] => []
  | x :: l' => insert_desc x (sorted_desc l')
  end.

(** [c.most_common(n)] for an integer [n]: the [n] largest by count,
    none when [n] is not positive. *)
Definition most_common (n : Z) (c : counter) : counter :=
  firstn (Z.to_nat n) (sorted_desc c).

(** [d[k] = v] *)
Fixpoint dict_set (k : pystr) (v : Z) (d : counter) : counter :=
  match d with
  | [] => [(k, v)]
  | (k', v') :: d' =>
      if pystr_eqb k' k then (k', v) :: d' else (k', v') :: dict_set k v d'
  end.

(** [dict(pairs)] *)
Definition dict (pairs : list (pystr * Z)) : counter :=
  fold_left (fun d kv => dict_set (fst kv) (snd kv) d) pairs [].

(** The segmenter and the stop-word corpus: [MeCab.Tagger(options)]
    yields the [parse] function of a tagger or raises;
    [stopwords.words(language)] yields a word list or raises
    ([LookupError] when the corpus is not installed). *)
Class Segmenter := {
  MeCab_Tagger : pystr -> result (pystr -> pystr);
  stopwords_words : pystr -> result (list pystr)
}.

(** The tokens added to the stop words. *)
Definition TWITTER_STOP_WORDS : list pystr :=
  [ u "RT"; u "http"; u "https"; u "co"; u "jp"; u "com"; u "www"; u "amp";
    u "..."; u "…"; u "！"; u "？"; u "笑"; u "w"; u "ｗ"; u "♪";
    u "："; u "；"; u "する"; u "いる"; u "なる"; u "ある"; u "れる"; u "の";
    u "が"; u "に"; u "を"; u "は"; u "た"; u "です"; u "ます"; u "ない";
    u "だ"; u "って"; u "て"; u "と"; u "も"; u "な" ].

(** The technology vocabulary of the tech-only mode. *)
Definition tech_words : list pystr :=
  [ u "AWS"; u "Azure"; u "GCP"; u "Kubernetes"; u "Docker"; u "DevOps";
    u "CI/CD"; u "マイクロサービス"; u "コンテナ"; u "サーバーレス"; u "インフラ"; u "クラウド";
    u "フロントエンド"; u "バックエンド"; u "フルスタック"; u "データベース"; u "SQL"; u "NoSQL";
    u "API"; u "REST"; u "GraphQL"; u "WebSocket"; u "HTTP"; u "HTTPS";
    u "SSL"; u "TLS"; u "セキュリティ"; u "認証"; u "認可"; u "暗号化";
    u "ハッシュ"; u "アルゴリズム"; u "機械学習"; u "ディープラーニング"; u "AI"; u "人工知能";
    u "ニューラル"; u "データサイエンス"; u "ビッグデータ"; u "分散処理"; u "並列処理"; u "スケーラビリティ";
    u "可用性"; u "信頼性"; u "モニタリング"; u "ロギング"; u "デバッグ"; u "テスト";
    u "CI"; u "CD"; u "Git"; u "GitHub"; u "GitLab"; u "BitBucket";
    u "アジャイル"; u "スクラム"; u "カンバン"; u "レガシー"; u "リファクタリング"; u "クリーンコード";
    u "デザインパターン"; u "アーキテクチャ"; u "モノリス"; u "サービスメッシュ"; u "Istio"; u "Envoy";
    u "Prometheus"; u "Grafana"; u "ELK"; u "Elasticsearch"; u "ブロックチェーン"; u "スマートコントラクト";
    u "Web3"; u "NFT"; u "メタバース"; u "AR"; u "VR"; u "IoT";
    u "5G"; u "6G"; u "エッジコンピューティング"; u "フォグコンピューティング"; u "マルチクラウド"; u "ハイブリッドクラウド";
    u "SaaS"; u "PaaS"; u "IaaS"; u "FaaS"; u "BaaS"; u "DaaS";
    u "XaaS"; u "オートメーション"; u "RPA"; u "ローコード"; u "ノーコード"; u "PWA";
    u "SPA"; u "SSR"; u "CSR"; u "JAMstack"; u "WebAssembly"; u "WASM";
    u "Rust"; u "Go"; u "Python"; u "JavaScript"; u "TypeScript"; u "React";
    u "Vue"; u "Angular"; u "Svelte"; u "Next.js"; u "Nuxt.js"; u "Node.js";
    u "Deno"; u "Django"; u "Flask"; u "FastAPI"; u "Spring"; u "Rails";
    u "Laravel"; u "PHP"; u "Java"; u "Kotlin"; u "Swift"; u "Flutter";
    u "React Native"; u "Xamarin"; u "Unity"; u "Unreal Engine"; u "Clojure"; u "Elixir";
    u "Scala"; u "Common Lisp"; u "Erlang"; u "python"; u "javascript"; u "programming";
    u "code"; u "developer"; u "tech"; u "cybersecurity"; u "security"; u "IT";
    u "software"; u "web"; u "api"; u "data"; u "github"; u "docker";
    u "cloud"; u "ML"; u "database"; u "dev"; u "coding"; u "プログラミング";
    u "エンジニア"; u "コード" ].

Section TopWords.
Context {UCD : Unicode} {SEG : Segmenter}.

(** The elements a [for] loop over [texts] visits. *)
Definition iter_texts (texts : pyobj) : list scalar :=
  match texts with
  | ObjList l | ObjSeries l => l
  | _ => []
  end.

(** [_validate_input] *)
Definition _validate_input (texts : pyobj) : result unit :=
  match texts with
  | ObjList l | ObjSeries l =>
      match l with
      | [] => Raise (mkExn ValueError (u "入力テキストが空です"))
      | _ :: _ => Ok tt
      end
  | _ =>
      Raise (mkExn TypeError
               (u "入力はリストまたはSeriesである必要があります"))
  end.

(** The filter of the tech-only mode. *)
Definition keep_tech (word : pystr) : bool :=
  mem word tech_words && (1 <? length word)%nat && negb (str_isdigit word).

(** The filter of the default mode. *)
Definition keep_default (stop_words : list pystr) (word : pystr) : bool :=
  negb (mem (lower word) stop_words)
  && (1 <? length word)%nat
  && negb (str_isdigit word)
  && negb (forallb isascii word).

(** The tokens of all the texts: [words] after the loop. *)
Definition tokenize (parse : pystr -> pystr) (texts : pyobj) : list pystr :=
  flat_map
    (fun text =>
       if pd_notna text
       then split (parse (_preprocess_text (py_str text)))
       else [])
    (iter_texts texts).

(** The inner [try]: the base stop words, empty on [LookupError]. *)
Definition base_stop_words : result (list pystr) :=
  match stopwords_words (u "japanese") with
  | Ok ws => Ok ws
  | Raise e => if isinstance_exn e LookupError then Ok [] else Raise e
  end.

(** The outer [try] block of [get_top_words]. *)
Definition top_words_try (texts : pyobj) (n : Z) (tech_only : bool)
  : result counter :=
  bind (_validate_input texts) (fun _ =>
  let all_text :=
    join (u " ") (map py_str (filter pd_notna (iter_texts texts))) in
  match strip all_text with
  | [] => Raise (mkExn ValueError (u "有効なテキストが存在しません"))
  | _ :: _ =>
      let all_text := _preprocess_text all_text in
      bind (MeCab_Tagger (u "-Owakati")) (fun parse =>
      let words := tokenize parse texts in
      bind base_stop_words (fun stop_words =>
      let stop_words := stop_words ++ TWITTER_STOP_WORDS in
      let word_counts :=
        if tech_only
        then Counter (filter keep_tech words)
        else Counter (filter (keep_default stop_words) words) in
      Ok (dict (most_common n word_counts))))
  end).

(** [get_top_words] *)
Definition get_top_words (texts : pyobj) (n : Z) (tech_only : bool)
  : result counter :=
  match top_words_try texts n tech_only with
  | Ok result => Ok result
  | Raise e =>
      if isinstance_exn e TypeError || isinstance_exn e ValueError
      then Raise e
      else
        let error_msg := u "予期せぬエラーが発生しました: " ++ exn_str e in
        Raise (mkExn ValueError error_msg)
  end.
End TopWords.

(** [texts] is a list or a Series. *)
Definition is_sequence (texts : pyobj) : bool :=
  match texts with
  | ObjList _ | ObjSeries _ => true
  | _ => false
  end.

(** A segmenter with another stop-word corpus. *)
Definition with_stopwords (SEG : Segmenter)
  (corpus : pystr -> result (list pystr)) : Segmenter :=
  {| MeCab_Tagger := @MeCab_Tagger SEG; stopwords_words := corpus |}.

(** ** Sample instances of the interfaces

    Small, concrete stand-ins used to run the functions on the inputs
    of the test-suite. *)

Definition in_range (lo hi c : N) : bool := ((lo <=? c) && (c <=? hi))%N.

(** ASCII, with kana and the CJK ideographs as letters, the full-width
    digits, and the no-break and ideographic spaces. *)
Definition sample_isspace (c : N) : bool :=
  in_range 9 13 c || in_range 28 32 c
  || (c =? 133)%N || (c =? 160)%N || (c =? 12288)%N.

Definition sample_isdigit (c : N) : bool :=
  in_range 48 57 c || in_range 65296 65305 c.

Definition sample_isalnum (c : N) : bool :=
  sample_isdigit c || in_range 65 90 c || in_range 97 122 c
  || in_range 12353 12438 c || in_range 12449 12538 c
  || in_range 12540 12543 c || in_range 19968 40959 c.

Definition sample_lower (s : pystr) : pystr :=
  map (fun c => if in_range 65 90 c then (c + 32)%N else c) s.

#[export] Instance sample_unicode : Unicode :=
  {| isspace := sample_isspace;
     isalnum := sample_isalnum;
     isdigit := sample_isdigit;
     lower := sample_lower;
     isspace_SPACE := eq_refl |}.

Definition digit_value (c : N) : option Z :=
  if in_range 48 57 c then Some (Z.of_N c - 48)%Z else None.

Fixpoint number_from (acc : Z) (s : pystr) : option Z :=
  match s with
  | [] => Some acc
  | c :: r =>
      match digit_value c with
      | Some d => number_from (10 * acc + d)%Z r
      | None => None
      end
  end.

Definition between (lo hi x : Z) : bool := ((lo <=? x) && (x <=? hi))%Z.

(** Reads [YYYY-MM-DD HH:MM:SS] and the null [NaT]; raises on any other
    string. *)
Definition sample_parse_datetime (s : pystr) : result timestamp :=
  let unknown :=
    Raise (mkExn ValueError
             (u "Unknown datetime string format, unable to parse: " ++ s)) in
  match s with
  | [y1; y2; y3; y4; 45; m1; m2; 45; d1; d2; 32;
     h1; h2; 58; n1; n2; 58; s1; s2]%N =>
      match number_from 0 [y1; y2; y3; y4], number_from 0 [m1; m2],
            number_from 0 [d1; d2], number_from 0 [h1; h2],
            number_from 0 [n1; n2], number_from 0 [s1; s2] with
      | Some y, Some m, Some d, Some h, Some n, Some sec =>
          if between 1 12 m && between 1 31 d && between 0 23 h
             && between 0 59 n && between 0 59 sec
          then Ok (Timestamp (mkDatetime y m d h n sec))
          else unknown
      | _, _, _, _, _, _ => unknown
      end
  | _ => if pystr_eqb s (u "NaT") then Ok NaT else unknown
  end.

Definition decimal (n : nat) : pystr :=
  u (NilZero.string_of_uint (Nat.to_uint n)).

Definition same_name (a b : pystr) : {a = b} + {a <> b} :=
  list_eq_dec N.eq_dec a b.

(** A naming of the columns: the [k]-th repeat of a name gets the
    suffix [.k], an empty name at position [i] becomes [Unnamed: i];
    [seen] holds the names of the header read so far. *)
Fixpoint sample_dedup_from (i : nat) (seen header : list pystr)
  : list pystr :=
  match header with
  | [] => []
  | name :: header' =>
      (match name with
       | [] => u "Unnamed: " ++ decimal i
       | _ :: _ =>
           match count_occ same_name seen name with
           | O => name
           | S k => name ++ [46%N] ++ decimal (S k)
           end
       end) :: sample_dedup_from (S i) (seen ++ [name]) header'
  end.

Definition sample_dedup_names (header : list pystr) : list pystr :=
  sample_dedup_from 0 [] header.

Lemma sample_dedup_from_length (i : nat) (seen header : list pystr) :
  length (sample_dedup_from i seen header) = length header.
Proof.
  revert i seen; induction header as [|name header IH]; intros i seen; simpl;
    [reflexivity | now rewrite IH].
Qed.

Lemma sample_dedup_from_plain (i : nat) (seen header : list pystr)
      (name : pystr) :
  name <> [] -> ~ In 46%N name -> ~ In 58%N name ->
  (In name (sample_dedup_from i seen header)
   <-> In name header /\ ~ In name seen).
Proof.
  intros Hne Hdot Hcolon.
  revert i seen; induction header as [|x header IH]; intros i seen.
  - simpl. tauto.
  - cbn [sample_dedup_from In]. rewrite IH, in_app_iff. cbn [In].
    destruct (same_name x name) as [-> | Hx].
    + destruct name as [|c name]; [congruence|].
      destruct (count_occ same_name seen (c :: name)) eqn:Hc.
      * apply count_occ_not_In in Hc. tauto.
      * assert (Hin : In (c :: name) seen).
        { apply (count_occ_In same_name). lia. }
        split; [|tauto].
        intros [E | H]; [|tauto].
        exfalso. apply Hdot. rewrite <- E.
        apply in_or_app. right. now left.
    + assert (Hhead :
        (match x with
         | [] => u "Unnamed: " ++ decimal i
         | _ :: _ =>
             match count_occ same_name seen x with
             | O => x
             | S k => x ++ [46%N] ++ decimal (S k)
             end
         end) <> name).
      { intros E. destruct x as [|c x].
        - apply Hcolon. rewrite <- E. apply in_or_app. left.
          cbv. repeat (first [left; reflexivity | right]).
        - destruct (count_occ same_name seen (c :: x)); [congruence|].
          apply Hdot. rewrite <- E. apply in_or_app. right. now left. }
      split.
      * intros [E | [H1 H2]]; [congruence|]. tauto.
      * intros [[E | H1] H2]; [congruence|].
        right. split; [exact H1|]. intros [H | [E | []]]; [tauto | congruence].
Qed.

Lemma sample_dedup_names_plain (header : list pystr) (name : pystr) :
  name <> [] -> ~ In 46%N name -> ~ In 58%N name ->
  (In name (sample_dedup_names header) <-> In name header).
Proof.
  intros Hne Hdot Hcolon. unfold sample_dedup_names.
  rewrite (sample_dedup_from_plain 0 [] header name Hne Hdot Hcolon).
  simpl. tauto.
Qed.

(** A pandas whose [errors] module defines [ResampleError]. *)
#[export] Instance sample_pandas : Pandas :=
  {| parse_datetime := sample_parse_datetime;
     msg_no_such_file :=
       fun path => u "[Errno 2] No such file or directory: '" ++ path ++ u "'";
     msg_no_columns := u "No columns to parse from file";
     msg_bad_line := fun _ _ _ => u "Error tokenizing data";
     errors_ResampleError := Some (OtherError "ResampleError");
     dedup_names := sample_dedup_names;
     dedup_names_length := sample_dedup_from_length 0 [];
     dedup_names_plain := sample_dedup_names_plain |}.

(** A pandas whose [errors] module does not. *)
Definition pandas_without_ResampleError : Pandas :=
  {| parse_datetime := sample_parse_datetime;
     msg_no_such_file := @msg_no_such_file sample_pandas;
     msg_no_columns := @msg_no_columns sample_pandas;
     msg_bad_line := @msg_bad_line sample_pandas;
     errors_ResampleError := None;
     dedup_names := sample_dedup_names;
     dedup_names_length := sample_dedup_from_length 0 [];
     dedup_names_plain := sample_dedup_names_plain |}.

(** A charting backend that counts the rows it is given and fails on an
    empty frame with an error that is neither a [TypeError] nor a
    [ValueError]. *)
#[export] Instance sample_plotting : Plotting :=
  {| Figure := nat;
     daily_counts_line := fun d =>
       match rows d with
       | [] => Raise (mkExn RuntimeError (u "nothing to plot"))
       | r => Ok (length r)
       end;
     category_counts_pie := fun d =>
       match rows d with
       | [] => Raise (mkExn RuntimeError (u "nothing to plot"))
       | r => Ok (length r)
       end |}.

(** A segmenter that leaves the text as it is (its words are already
    separated by spaces), without a stop-word corpus. *)
#[export] Instance sample_segmenter : Segmenter :=
  {| MeCab_Tagger := fun _ => Ok (fun text => text);
     stopwords_words := fun _ =>
       Raise (mkExn LookupError (u "Resource stopwords not found.")) |}.

(** A file system with one well-formed file, one file whose only row
    has an empty timestamp field, and one without the text column. *)
Definition sample_fs : filesystem := fun path =>
  if pystr_eqb path (u "bookmarks.csv") then
    Csv [ [u "tweeted_at"; u "screen_name"; u "full_text"];
          [u "2023-01-01 12:00:00"; u "user1"; u "テストツイート1"];
          [u "2023-01-02 12:00:00"; u "user2"; u "テストツイート2"] ]
  else if pystr_eqb path (u "no_timestamp.csv") then
    Csv [ [u "tweeted_at"; u "screen_name"; u "full_text"];
          [u ""; u "user1"; u "テストツイート"] ]
  else if pystr_eqb path (u "invalid_datetime.csv") then
    Csv [ [u "tweeted_at"; u "screen_name"; u "full_text"];
          [u "invalid_datetime"; u "user1"; u "テストツイート"] ]
  else if pystr_eqb path (u "missing_columns.csv") then
    Csv [ [u "tweeted_at"; u "screen_name"];
          [u "2023-01-01 12:00:00"; u "user1"] ]
  else if pystr_eqb path (u "empty.csv") then Csv []
  else Missing.

(** ** Notions used in the statements *)

(** The required columns a header lacks. *)
Definition missing_columns_of (header : list pystr) : list pystr :=
  filter (fun col => negb (mem col header)) REQUIRED_COLUMNS.

(** [c] is the date-time value [pd.to_datetime] gives for the cell
    [raw]: the null [NaT] for a missing cell, what the string reads as
    otherwise. *)
Definition converted {PD : Pandas} (raw c : cell) : Prop :=
  match raw with
  | CNaN => c = CTime NaT
  | CStr s => exists t, parse_datetime s = Ok t /\ c = CTime t
  | CTime t => c = CTime t
  end.

(** A text that survives the emptiness check: not null, and not made of
    whitespace only. *)
Definition usable {UCD : Unicode} (text : scalar) : bool :=
  pd_notna text && negb (forallb isspace (py_str text)).

(** How often [w] occurs among [words]. *)
Definition occurrences (w : pystr) (words : list pystr) : Z :=
  Z.of_nat (length (filter (pystr_eqb w) words)).

(** Counts in descending order. *)
Definition descending (c : counter) : Prop :=
  StronglySorted (fun a b => (snd b <= snd a)%Z) c.


(** [c[k]], zero for an absent key. *)
Fixpoint lookup (k : pystr) (c : counter) : Z :=
  match c with
  | [] => 0%Z
  | (k', v) :: c' => if pystr_eqb k' k then v else lookup k c'
  end.

Definition keys (c : counter) : list pystr := map fst c.


(** The tokens [get_top_words] counts: those the filter of the mode
    keeps. *)
Definition kept_words {UCD : Unicode} (tech_only : bool)
  (stop_words : list pystr) (words : list pystr) : list pystr :=
  filter (if tech_only then keep_tech else keep_default stop_words) words.

(** The four conditions of the default mode on a token, given the stop
    words. *)
Definition passes_default {UCD : Unicode} (stop_words : list pystr)
  (w : pystr) : Prop :=
  ~ In (lower w) stop_words
  /\ (1 < length w)%nat
  /\ str_isdigit w = false
  /\ exists ch, In ch w /\ isascii ch = false.

(** Sample inputs. *)
Definition empty_frame : pyobj :=
  ObjDataFrame {| columns := [u "tweeted_at"; u "category"]; rows := [] |}.

Definition sample_texts : pyobj :=
  ObjList [ SStr (u "プログラミング 言語 の Python について");
            SStr (u "Python で データ 分析 を する");
            SNaN;
            SStr (u "機械学習 と Python プログラミング 2023") ].

Definition ascii_texts : pyobj :=
  ObjList [ SStr (u "hello world 2023 http://t.co/x"); SNone ].

Definition cased_texts : pyobj :=
  ObjSeries [ SStr (u "Python PYTHON docker の Python") ].


(** ** [app.py]: the categorisation step of [main] *)



(** A file system whose files cannot be opened. *)
Definition locked_fs : filesystem := fun _ =>
  Unreadable (mkExn OSError (u "[Errno 13] Permission denied")).

(** A frame without the columns the charts need, and one with them. *)
Definition wrong_frame : pyobj :=
  ObjDataFrame {| columns := [u "wrong_column"];
                  rows := [[CStr (u "1")]; [CStr (u "2")]] |}.

Definition small_frame : pyobj :=
  ObjDataFrame
    {| columns := [u "tweeted_at"; u "category"];
       rows := [[CTime (Timestamp (mkDatetime 2023 1 1 12 0 0));
                 CStr (u "Tech")]] |}.

(** A segmenter whose tagger cannot be built. *)
Definition no_dictionary_segmenter : Segmenter :=
  {| MeCab_Tagger := fun _ =>
       Raise (mkExn RuntimeError (u "no such file or directory: mecabrc"));
     stopwords_words := fun _ => Ok [] |}.

(** A segmenter whose corpus is installed without the language file. *)
Definition no_language_segmenter : Segmenter :=
  {| MeCab_Tagger := fun _ => Ok (fun text => text);
     stopwords_words := fun _ =>
       Raise (mkExn OSError (u "No such file or directory: japanese")) |}.

(** The entries of a counter with a given count, in the counter's
    order. *)
Definition with_count (c : Z) (l : counter) : counter :=
  filter (fun kv => (snd kv =? c)%Z) l.

(** The sum of the counts. *)
Definition total (l : counter) : Z := fold_right (fun kv s => (snd kv + s)%Z) 0%Z l.


(** The distinct words of a list in the order of their first
    occurrence; [seen] holds the words met so far. *)
Fixpoint first_occurrences (seen : list pystr) (words : list pystr)
  : list pystr :=
  match words with
  | [] => []
  | w :: words' =>
      if mem w seen then first_occurrences seen words'
      else w :: first_occurrences (seen ++ [w]) words'
  end.


Definition tied_texts : pyobj :=
  ObjList [ SStr (u "分析 データ 分析 言語 データ 機械学習") ].


(** A file whose data lines hold bytes that do not decode, and a file
    whose header repeats a name. *)
Definition undecodable_fs : filesystem := fun _ =>
  HeaderOnly [u "tweeted_at"; u "screen_name"; u "full_text"]
    (mkExn UnicodeDecodeError
       (u "'utf-8' codec can't decode byte 0xff in position 40: invalid start byte")).

Definition unreadable_data_fs : filesystem := fun _ =>
  HeaderOnly [u "tweeted_at"; u "screen_name"; u "full_text"]
    (mkExn OSError (u "[Errno 5] Input/output error")).

Definition repeated_fs : filesystem := fun _ =>
  Csv [ [u "tweeted_at"; u "screen_name"; u "full_text"; u "full_text"];
        [u "2023-01-01 12:00:00"; u "user1"; u "a"; u "b"] ].

(** [sub] is [l] with some of its elements deleted. *)
Inductive subsequence {A : Type} : list A -> list A -> Prop :=
| subsequence_nil : subsequence [] []
| subsequence_keep (x : A) (sub l : list A) :
    subsequence sub l -> subsequence (x :: sub) (x :: l)
| subsequence_drop (x : A) (sub l : list A) :
    subsequence sub l -> subsequence sub (x :: l).

(* ================================================================== *)
(** * Part II: properties *)
(* ================================================================== *)

(** ** Strings *)

Lemma pystr_eqb_eq (a b : pystr) : pystr_eqb a b = true <-> a = b.
Proof.
  revert b; induction a as [|x a IH]; intros [|y b]; simpl;
    try (split; [discriminate | discriminate]); try tauto.
  rewrite andb_true_iff, N.eqb_eq, IH.
  split; [intros [-> ->]; reflexivity | intros H; inversion H; auto].
Qed.

Lemma pystr_eqb_refl (a : pystr) : pystr_eqb a a = true.
Proof. apply pystr_eqb_eq; reflexivity. Qed.

Lemma pystr_eqb_sym (a b : pystr) : pystr_eqb a b = pystr_eqb b a.
Proof.
  destruct (pystr_eqb a b) eqn:E, (pystr_eqb b a) eqn:F; auto.
  - apply pystr_eqb_eq in E; subst. rewrite pystr_eqb_refl in F. discriminate.
  - apply pystr_eqb_eq in F; subst. rewrite pystr_eqb_refl in E. discriminate.
Qed.

Lemma mem_In (w : pystr) (l : list pystr) : mem w l = true <-> In w l.
Proof.
  unfold mem. rewrite existsb_exists. split.
  - intros [x [Hx E]]. apply pystr_eqb_eq in E. subst. exact Hx.
  - intros H. exists w. split; [exact H | apply pystr_eqb_refl].
Qed.

Lemma mem_false_not_In (w : pystr) (l : list pystr) :
  mem w l = false <-> ~ In w l.
Proof.
  rewrite <- mem_In. destruct (mem w l); split; congruence.
Qed.

Lemma startswith_prefix (s p : pystr) :
  startswith s p = true <-> exists post, s = p ++ post.
Proof.
  revert s; induction p as [|a p IH]; intros [|b s]; simpl.
  - split; [intros _; exists []; reflexivity | reflexivity].
  - split; [intros _; exists (b :: s); reflexivity | reflexivity].
  - split; [discriminate | intros [post H]; discriminate].
  - rewrite andb_true_iff, N.eqb_eq, IH. split.
    + intros [-> [post ->]]. exists post. reflexivity.
    + intros [post H]. inversion H.
      split; [reflexivity | exists post; reflexivity].
Qed.

Lemma contains_occurs_in (s k : pystr) :
  contains s k = true <-> occurs_in k s.
Proof.
  unfold occurs_in. induction s as [|c s IH].
  - cbn [contains]. rewrite orb_false_r, startswith_prefix. split.
    + intros [post H]. exists [], post. exact H.
    + intros [pre [post H]]. destruct pre; [exists post; exact H | discriminate].
  - cbn [contains]. rewrite orb_true_iff, startswith_prefix, IH. split.
    + intros [[post H] | [pre [post H]]].
      * exists [], post. exact H.
      * exists (c :: pre), post. rewrite H. reflexivity.
    + intros [[|c' pre] [post H]].
      * left. exists post. exact H.
      * right. inversion H. exists pre, post. reflexivity.
Qed.

(** The text clean-up and the splitting on small inputs. *)
Example preprocess_split_examples :
  _preprocess_text (u "see https://t.co/abc now, www.example.com/x end!")
  = u "see  now  end"
  /\ _preprocess_text (u "http www") = u "http www"
  /\ _preprocess_text (u "機械学習、すごい!") = u "機械学習すごい"
  /\ split (u "  a  bc d ") = [u "a"; u "bc"; u "d"]
  /\ strip (u "  a b  ") = u "a b".
Proof. vm_compute. repeat split. Qed.

(** ** The classifier *)

Lemma labels_differ : TECHNOLOGY <> OTHER.
Proof. vm_compute. discriminate. Qed.

Lemma keyword_hit_iff (text_lower : pystr) :
  existsb (fun keyword => contains text_lower keyword) TECH_KEYWORDS = true
  <-> exists k, In k TECH_KEYWORDS /\ occurs_in k text_lower.
Proof.
  rewrite existsb_exists. split; intros [k [Hk H]]; exists k; split; auto;
    apply contains_occurs_in; exact H.
Qed.

(** C3: [categorize_tech] returns a label on every input (it is a total
    function into the labels, no exception is part of its result):
    [OTHER] on every value that is not a string; on a string,
    [TECHNOLOGY] exactly when one of [TECH_KEYWORDS] occurs as a
    substring of the lower-cased text, and [OTHER] exactly when none
    does. *)
Theorem categorize_tech_total_keyword_match {UCD : Unicode} :
  forall text : pyobj,
    match text with
    | ObjScalar (SStr s) =>
        (categorize_tech text = TECHNOLOGY
         <-> exists k, In k TECH_KEYWORDS /\ occurs_in k (lower s))
        /\ (categorize_tech text = OTHER
            <-> ~ exists k, In k TECH_KEYWORDS /\ occurs_in k (lower s))
    | _ => categorize_tech text = OTHER
    end.
Proof.
  intros [[| | b | z | s] | l | l | l | keys | df]; try reflexivity.
  unfold categorize_tech. cbn [pd_isna].
  rewrite <- keyword_hit_iff.
  destruct (existsb _ TECH_KEYWORDS); split; split; intros H;
    try reflexivity; try discriminate; try congruence;
    exfalso; apply labels_differ; congruence.
Qed.

(** The classifications the test-suite and the specification list. *)
Example categorize_tech_examples :
  categorize_tech (ObjScalar (SStr (u "Pythonプログラミングについて")))
    = TECHNOLOGY
  /\ categorize_tech (ObjScalar (SStr (u "JavaScriptの新機能"))) = TECHNOLOGY
  /\ categorize_tech (ObjScalar (SStr (u "エンジニアのキャリア"))) = TECHNOLOGY
  /\ categorize_tech (ObjScalar (SStr (u "今日の天気について"))) = OTHER
  /\ categorize_tech (ObjScalar (SStr (u "スポーツニュース"))) = OTHER
  /\ categorize_tech (ObjScalar (SStr (u ""))) = OTHER
  /\ categorize_tech (ObjScalar SNone) = OTHER
  /\ categorize_tech (ObjScalar (SInt 123)) = OTHER
  /\ categorize_tech (ObjScalar (SBool true)) = OTHER
  /\ categorize_tech (ObjList []) = OTHER.
Proof. vm_compute. repeat split. Qed.

(** ** The loader *)

Arguments u : simpl never.

Section LoaderFacts.
Context {PD : Pandas}.
Variable fs : filesystem.

Lemma missing_columns_nonempty (header : list pystr) :
  (exists col, In col REQUIRED_COLUMNS /\ ~ In col header) ->
  missing_columns_of header <> [].
Proof.
  intros [col [Hreq Hnot]] E.
  assert (H : In col (missing_columns_of header)).
  { apply filter_In. split; [exact Hreq|].
    apply negb_true_iff, mem_false_not_In. exact Hnot. }
  rewrite E in H. destruct H.
Qed.

Lemma missing_columns_empty (header : list pystr) :
  missing_columns_of header = [] ->
  forall col, In col REQUIRED_COLUMNS -> In col header.
Proof.
  intros E col Hreq. apply mem_In.
  destruct (mem col header) eqn:M; [reflexivity|].
  assert (H : In col (missing_columns_of header)).
  { apply filter_In. split; [exact Hreq | now rewrite M]. }
  rewrite E in H. destruct H.
Qed.

Lemma required_plain (col : pystr) :
  In col REQUIRED_COLUMNS ->
  col <> [] /\ ~ In 46%N col /\ ~ In 58%N col.
Proof.
  intros [<- | [<- | [<- | []]]];
    (split; [discriminate | split; vm_compute; intuition discriminate]).
Qed.

(** Naming the columns leaves the required names as they are. *)
Lemma required_in_dedup_names (header : list pystr) (col : pystr) :
  In col REQUIRED_COLUMNS ->
  (In col (dedup_names header) <-> In col header).
Proof.
  intros H. destruct (required_plain col H) as [A [B C]].
  now apply dedup_names_plain.
Qed.

Lemma missing_columns_dedup_names (header : list pystr) :
  missing_columns_of (dedup_names header) = missing_columns_of header.
Proof.
  unfold missing_columns_of. apply filter_ext_in. intros col Hcol.
  f_equal. pose proof (required_in_dedup_names header col Hcol) as H.
  rewrite <- !mem_In in H.
  destruct (mem col (dedup_names header)), (mem col header); intuition.
Qed.

Lemma open_header_line (path : pystr) (header : list pystr) :
  header_line (fs path) = Some header -> open_header fs path = Ok header.
Proof.
  unfold open_header, header_line.
  destruct (fs path) as [| e | [|h data] | h e]; intros H; inversion H;
    reflexivity.
Qed.

(** The first [try] statement of [load_data] on a resource that has
    a header line. *)
Lemma header_stage (path : pystr) (header : list pystr)
      (log : list io_event) :
  header_line (fs path) = Some header ->
  try_except
    (header_df <- read_csv_nrows0 fs path ;;
     let missing_columns :=
       filter (fun col => negb (mem col (columns header_df)))
              REQUIRED_COLUMNS in
     match missing_columns with
     | _ :: _ =>
         raise (mkExn ParserError
                  (u "必須カラムが不足しています: "
                     ++ join (u ", ") missing_columns))
     | [] => ret header_df
     end)
    (fun e =>
       if isinstance_exn e EmptyDataError then raise e
       else if isinstance_exn e ParserError then raise e
       else if isinstance_exn e FileNotFoundError then raise e
       else raise (mkExn ParserError (exn_str e))) log
  = match missing_columns_of header with
    | _ :: _ =>
        (Raise (mkExn ParserError
                  (u "必須カラムが不足しています: "
                     ++ join (u ", ") (missing_columns_of header))),
         log ++ [ReadHeader path])
    | [] => (Ok {| columns := dedup_names header; rows := [] |},
             log ++ [ReadHeader path])
    end.
Proof.
  intros Hfs.
  unfold try_except, bindIO, read_csv_nrows0.
  rewrite (open_header_line path header Hfs). cbn [bind columns].
  fold (missing_columns_of (dedup_names header)).
  rewrite missing_columns_dedup_names.
  destruct (missing_columns_of header); reflexivity.
Qed.
End LoaderFacts.

(** C2: when the header of a CSV resource lacks one of the required
    columns, [load_data] raises [pandas.errors.ParserError] (the
    loader's schema error, a [ValueError]) naming the missing columns,
    and the only read it has performed is the header read
    ([nrows=0]): the full read never happens, so the outcome does not
    depend on the data lines, nor on whether they can be read. *)
Theorem load_data_missing_column_detected_on_header {PD : Pandas} :
  forall (fs : filesystem) (path : pystr) (header : list pystr)
         (log : list io_event),
    header_line (fs path) = Some header ->
    (exists col, In col REQUIRED_COLUMNS /\ ~ In col header) ->
    load_data fs path log
    = (Raise (mkExn ParserError
                (u "必須カラムが不足しています: "
                   ++ join (u ", ") (missing_columns_of header))),
       log ++ [ReadHeader path])
    /\ isinstance_exn
         (mkExn ParserError
            (u "必須カラムが不足しています: "
               ++ join (u ", ") (missing_columns_of header))) ValueError
       = true
    /\ ~ In (ReadAll path) (snd (load_data fs path [])).
Proof.
  intros fs path header log Hfs Hmiss.
  pose proof (missing_columns_nonempty header Hmiss) as Hne.
  assert (Hload : forall l,
    load_data fs path l
    = (Raise (mkExn ParserError
                (u "必須カラムが不足しています: "
                   ++ join (u ", ") (missing_columns_of header))),
       l ++ [ReadHeader path])).
  { intros l. unfold load_data. unfold bindIO at 1.
    rewrite (header_stage fs path header l Hfs).
    destruct (missing_columns_of header); [congruence | reflexivity]. }
  split; [apply Hload | split; [reflexivity|]].
  rewrite Hload. simpl. intros [H | []]. discriminate.
Qed.

Lemma load_data_missing_column_detected_on_header_witness :
  load_data (PD := sample_pandas) sample_fs (u "missing_columns.csv") []
  = (Raise (mkExn ParserError (u "必須カラムが不足しています: full_text")),
     [ReadHeader (u "missing_columns.csv")]).
Proof.
  destruct (@load_data_missing_column_detected_on_header sample_pandas
              sample_fs (u "missing_columns.csv")
              [u "tweeted_at"; u "screen_name"] [])
    as [H _].
  - reflexivity.
  - exists (u "full_text"). split.
    + right. right. left. reflexivity.
    + vm_compute. intros [H | [H | []]]; discriminate.
  - rewrite H. vm_compute. reflexivity.
Defined.

Section LoaderTimestamps.
Context {PD : Pandas}.
Variable fs : filesystem.

Lemma read_csv_log (path : pystr) (log : list io_event) :
  read_csv fs path log = (fst (read_csv fs path []), log ++ [ReadAll path]).
Proof. reflexivity. Qed.

Lemma index_of_bound (name : pystr) (l : list pystr) (i : nat) :
  index_of name l = Some i -> (i < length l)%nat.
Proof.
  revert i; induction l as [|x l IH]; intros i; simpl; [discriminate|].
  destruct (pystr_eqb x name).
  - intros H; inversion H; lia.
  - destruct (index_of name l); [|discriminate].
    intros H; inversion H. specialize (IH n eq_refl). lia.
Qed.


Lemma nth_replace_nth (i : nat) (v : cell) (r : list cell) :
  (i < length r)%nat -> nth i (replace_nth i v r) CNaN = v.
Proof.
  revert r; induction i as [|i IH]; intros [|x r]; simpl; try lia; auto.
  intros H. apply IH. lia.
Qed.

Lemma column_of_replaced (i : nat) (rs : list (list cell)) (col : list cell) :
  Forall (fun r => (i < length r)%nat) rs ->
  length col = length rs ->
  map (fun r => nth i r CNaN)
      (zip_with (fun r v => replace_nth i v r) rs col) = col.
Proof.
  intros Hrs; revert col; induction Hrs as [|r rs Hr _ IH];
    intros [|v col]; simpl; try discriminate; auto.
  intros H. rewrite nth_replace_nth by exact Hr. f_equal. apply IH. lia.
Qed.

Lemma length_zip_replaced (i : nat) (rs : list (list cell)) (col : list cell) :
  length col = length rs ->
  length (zip_with (fun r v => replace_nth i v r) rs col) = length rs.
Proof.
  revert col; induction rs as [|r rs IH]; intros [|v col]; simpl;
    try discriminate; auto.
Qed.

(** Reading a column back after assigning it. *)
Lemma getitem_setitem (df : DataFrame) (name : pystr) (i : nat)
      (col : list cell) :
  index_of name (columns df) = Some i ->
  Forall (fun r => (i < length r)%nat) (rows df) ->
  length col = length (rows df) ->
  getitem (setitem df name col) name = Ok col
  /\ length (rows (setitem df name col)) = length (rows df)
  /\ columns (setitem df name col) = columns df.
Proof.
  intros Hi Hrows Hlen. unfold getitem, setitem. rewrite Hi.
  cbn [columns rows]. rewrite Hi.
  rewrite column_of_replaced by assumption.
  rewrite length_zip_replaced by assumption. auto.
Qed.

Lemma getitem_length (df : DataFrame) (name : pystr) (col : list cell) :
  getitem df name = Ok col -> length col = length (rows df).
Proof.
  unfold getitem. destruct (index_of name (columns df)); [|discriminate].
  intros H; inversion H. apply length_map.
Qed.

Lemma find_bad_line_none (width i : nat) (data : list (list pystr)) :
  find_bad_line width i data = None ->
  Forall (fun r => (length r <= width)%nat) data.
Proof.
  revert i; induction data as [|r data IH]; intros i; simpl; [constructor|].
  destruct (width <? length r)%nat eqn:E; [discriminate|].
  apply Nat.ltb_ge in E. intros H. constructor; [exact E | eapply IH; eauto].
Qed.

Lemma length_row (width : nat) (header r : list pystr) :
  (length header <= width)%nat -> (length r <= width)%nat ->
  length (skipn (width - length header) (pad width (map to_cell r)))
  = length header.
Proof.
  intros Hh Hr. unfold pad.
  rewrite length_skipn, length_app, repeat_length, length_map. lia.
Qed.

(** Every row [read_csv] returns is as long as the header. *)
Lemma read_csv_rows (path : pystr) (df : DataFrame) :
  fst (read_csv fs path []) = Ok df ->
  Forall (fun r => length r = length (columns df)) (rows df)
  /\ exists header data,
      fs path = Csv (header :: data) /\ columns df = dedup_names header.
Proof.
  unfold read_csv, open_csv. cbn [fst].
  destruct (fs path) as [| e | [|header data] | h e]; cbn [bind];
    try discriminate.
  set (width := match data with
                | [] => length header
                | r :: _ => Nat.max (length header) (length r)
                end).
  destruct (find_bad_line width 1 (tl data)) as [[i saw]|] eqn:Hbad;
    [discriminate|].
  intros H; inversion H; subst df; clear H. cbn [rows columns].
  split; [|eauto]. rewrite dedup_names_length.
  apply find_bad_line_none in Hbad.
  assert (Hw : (length header <= width)%nat).
  { subst width. destruct data; lia. }
  assert (Hall : Forall (fun r => (length r <= width)%nat) data).
  { destruct data as [|r data]; [constructor|].
    constructor; [subst width; lia | exact Hbad]. }
  clear Hbad. clearbody width.
  induction Hall as [|r rest Hr _ IH]; cbn [map];
    constructor; auto using length_row.
Qed.

Lemma to_datetime_cell_converted (raw c : cell) :
  to_datetime_cell raw = Ok c -> converted raw c /\ exists t, c = CTime t.
Proof.
  destruct raw as [| s | t]; simpl.
  - intros H; inversion H; eauto.
  - destruct (parse_datetime s) as [t|e] eqn:E; simpl; [|discriminate].
    intros H; inversion H; eauto.
  - intros H; inversion H; eauto.
Qed.

Lemma to_datetime_converted (col col' : list cell) :
  to_datetime col = Ok col' ->
  Forall2 (fun raw c => converted raw c /\ exists t, c = CTime t) col col'.
Proof.
  revert col'; induction col as [|c col IH]; intros col'; simpl.
  - intros H; inversion H; constructor.
  - destruct (to_datetime_cell c) as [c'|e] eqn:Ec; simpl; [|discriminate].
    destruct (to_datetime col) as [col''|e]; simpl; [|discriminate].
    intros H; inversion H; subst.
    constructor; [now apply to_datetime_cell_converted | now apply IH].
Qed.

Lemma to_datetime_fails (col : list cell) (s : pystr) (e : exn) :
  In (CStr s) col -> parse_datetime s = Raise e ->
  exists e', to_datetime col = Raise e'.
Proof.
  intros Hin Hs; induction col as [|c col IH]; [destruct Hin|].
  simpl. destruct Hin as [-> | Hin].
  - simpl. rewrite Hs. simpl. eauto.
  - destruct (to_datetime_cell c); simpl; [|eauto].
    destruct (IH Hin) as [e' ->]. simpl. eauto.
Qed.

(** [load_data] on a resource with a header line, stage by stage. *)
Lemma load_data_stages (path : pystr) (header : list pystr)
      (log : list io_event) :
  header_line (fs path) = Some header ->
  load_data fs path log =
  match missing_columns_of header with
  | _ :: _ =>
      (Raise (mkExn ParserError
                (u "必須カラムが不足しています: "
                   ++ join (u ", ") (missing_columns_of header))),
       log ++ [ReadHeader path])
  | [] =>
      let log' := (log ++ [ReadHeader path]) ++ [ReadAll path] in
      match fst (read_csv fs path []) with
      | Raise e => (Raise e, log')
      | Ok bookmark_df =>
          match bind (getitem bookmark_df (u "tweeted_at")) to_datetime with
          | Ok col' => (Ok (setitem bookmark_df (u "tweeted_at") col'), log')
          | Raise e =>
              (Raise (mkExn ValueError
                        (u "日時データの変換に失敗しました: " ++ exn_str e)),
               log')
          end
      end
  end.
Proof.
  intros Hfs. unfold load_data. unfold bindIO at 1.
  rewrite (header_stage fs path header log Hfs).
  destruct (missing_columns_of header); [|reflexivity].
  unfold bindIO at 1. unfold try_except at 1.
  rewrite read_csv_log. cbv zeta.
  destruct (fst (read_csv fs path [])) as [df|e]; [|reflexivity].
  unfold try_except, bindIO, lift, ret, raise.
  destruct (getitem df (u "tweeted_at")) as [col|e]; cbn [bind];
    [|reflexivity].
  destruct (to_datetime col); reflexivity.
Qed.
End LoaderTimestamps.

Lemma load_data_needs_header {PD : Pandas} (fs : filesystem) (path : pystr)
      (log : list io_event) :
  header_line (fs path) = None ->
  exists e, fst (load_data fs path log) = Raise e.
Proof.
  intros Hno.
  unfold load_data, bindIO, try_except, read_csv_nrows0, open_header.
  destruct (fs path) as [| e | [|header data] | h e0]; cbn [bind];
    try discriminate.
  - vm_compute. eauto.
  - destruct (isinstance_exn e EmptyDataError); [cbn; eauto|].
    destruct (isinstance_exn e ParserError); [cbn; eauto|].
    destruct (isinstance_exn e FileNotFoundError); cbn; eauto.
  - vm_compute. eauto.
Qed.

(** C1, as the code has it: after a successful [load_data] the
    [tweeted_at] column holds a typed date-time value for every record
    of the table read from the file (a [Timestamp], or the null [NaT]):
    the cell of a missing field is [NaT], the cell of a string is what
    [pd.to_datetime] reads it as.  When a timestamp string cannot be
    read the call raises a [ValueError] and returns no table. *)
Theorem load_data_timestamps_typed {PD : Pandas} :
  forall (fs : filesystem) (path : pystr) (log : list io_event),
    (forall df log',
        load_data fs path log = (Ok df, log') ->
        exists raw_df raw_col col,
          fst (read_csv fs path []) = Ok raw_df
          /\ getitem raw_df (u "tweeted_at") = Ok raw_col
          /\ getitem df (u "tweeted_at") = Ok col
          /\ length col = length (rows df)
          /\ length (rows df) = length (rows raw_df)
          /\ Forall2 (fun raw c => converted raw c /\ exists t, c = CTime t)
                     raw_col col)
    /\ (forall raw_df raw_col s e,
           fst (read_csv fs path []) = Ok raw_df ->
           getitem raw_df (u "tweeted_at") = Ok raw_col ->
           In (CStr s) raw_col ->
           parse_datetime s = Raise e ->
           exists e', fst (load_data fs path log) = Raise e'
                      /\ isinstance_exn e' ValueError = true).
Proof.
  intros fs path log. split.
  - intros df log' Hload.
    destruct (header_line (fs path)) as [header|] eqn:Hfs;
      [|destruct (load_data_needs_header fs path log Hfs) as [e He];
        rewrite Hload in He; discriminate].
    rewrite (load_data_stages fs path header log Hfs) in Hload.
    destruct (missing_columns_of header); [|discriminate].
    cbv zeta in Hload.
    destruct (fst (read_csv fs path [])) as [raw_df|e] eqn:Hraw;
      [|discriminate].
    destruct (getitem raw_df (u "tweeted_at")) as [raw_col|e] eqn:Hget;
      cbn [bind] in Hload; [|discriminate].
    destruct (to_datetime raw_col) as [col|e] eqn:Hconv; [|discriminate].
    inversion Hload; subst df log'; clear Hload.
    pose proof (to_datetime_converted raw_col col Hconv) as Hall.
    pose proof (getitem_length raw_df _ raw_col Hget) as Hlen.
    pose proof (Forall2_length Hall) as Hlen2.
    destruct (read_csv_rows fs path raw_df Hraw) as [Hrows _].
    unfold getitem in Hget.
    destruct (index_of (u "tweeted_at") (columns raw_df)) as [i|] eqn:Hi;
      [|discriminate].
    pose proof (index_of_bound _ _ _ Hi) as Hbound.
    destruct (getitem_setitem raw_df (u "tweeted_at") i col Hi) as [G [L _]].
    { eapply Forall_impl; [|exact Hrows]. simpl. intros r Hr. lia. }
    { lia. }
    exists raw_df, raw_col, col. unfold getitem at 1. rewrite Hi.
    repeat split; auto; try lia.
  - intros raw_df raw_col s e Hraw Hget Hin Hs.
    destruct (read_csv_rows fs path raw_df Hraw) as [_ [header [data [Hfs _]]]].
    assert (Hh : header_line (fs path) = Some header) by now rewrite Hfs.
    rewrite (load_data_stages fs path header log Hh).
    destruct (missing_columns_of header).
    + cbv zeta. rewrite Hraw, Hget. cbn [bind].
      destruct (to_datetime_fails raw_col s e Hin Hs) as [e' ->].
      cbn [fst]. eexists. split; reflexivity.
    + cbn [fst]. eexists. split; reflexivity.
Qed.

Lemma load_data_timestamps_typed_witness :
  (exists df,
      load_data (PD := sample_pandas) sample_fs (u "bookmarks.csv") []
      = (Ok df, [ReadHeader (u "bookmarks.csv"); ReadAll (u "bookmarks.csv")])
      /\ getitem df (u "tweeted_at")
         = Ok [CTime (Timestamp (mkDatetime 2023 1 1 12 0 0));
               CTime (Timestamp (mkDatetime 2023 1 2 12 0 0))])
  /\ exists e',
      fst (load_data (PD := sample_pandas) sample_fs
             (u "invalid_datetime.csv") []) = Raise e'
      /\ isinstance_exn e' ValueError = true.
Proof.
  split.
  - eexists. split; vm_compute; reflexivity.
  - destruct (@load_data_timestamps_typed sample_pandas sample_fs
                (u "invalid_datetime.csv") []) as [_ H].
    eapply (H _ _ (u "invalid_datetime")); vm_compute; try reflexivity.
    left. reflexivity.
Defined.

(** C1 as the specification words it fails: a file whose only row has
    an empty timestamp field loads, and the record's timestamp is the
    null [NaT]. *)
Lemma load_data_null_timestamp_loaded :
  exists df,
    load_data (PD := sample_pandas) sample_fs (u "no_timestamp.csv") []
    = (Ok df, [ReadHeader (u "no_timestamp.csv");
               ReadAll (u "no_timestamp.csv")])
    /\ getitem df (u "tweeted_at") = Ok [CTime NaT].
Proof. eexists. split; vm_compute; reflexivity. Qed.

(** ** The chart builders *)

Lemma suffix_occurs_in (pre s : pystr) : occurs_in s (pre ++ s).
Proof. exists pre, []. now rewrite app_nil_r. Qed.

Section ChartFacts.
Context {PD : Pandas} {PL : Plotting}.

(** What reaches the caller when the [try] block of
    [create_category_plot] raises. *)
Lemma create_category_plot_raises (df : pyobj) (e : exn) :
  category_try df = Raise e ->
  create_category_plot df =
  if isinstance_exn e TypeError || isinstance_exn e ValueError
  then Raise e
  else Raise (mkExn ValueError (u "予期せぬエラーが発生しました: " ++ exn_str e)).
Proof. intros H. unfold create_category_plot. now rewrite H. Qed.

(** The same for [create_time_series_plot], when the name
    [pd.errors.ResampleError] resolves to a class. *)
Lemma create_time_series_plot_raises (df : pyobj) (e : exn)
      (resample_error : exn_class) :
  errors_ResampleError = Some resample_error ->
  time_series_try df = Raise e ->
  create_time_series_plot df =
  if isinstance_exn e TypeError || isinstance_exn e ValueError
  then Raise e
  else if isinstance_exn e resample_error
  then Raise (mkExn ValueError (u "時系列データの集計に失敗しました: " ++ exn_str e))
  else Raise (mkExn ValueError (u "予期せぬエラーが発生しました: " ++ exn_str e)).
Proof.
  intros Hr H. unfold create_time_series_plot. now rewrite H, Hr.
Qed.

(** When the name does not resolve, evaluating the second handler's
    class raises an [AttributeError] in place of the failure being
    handled. *)
Lemma create_time_series_plot_unresolved_handler (df : pyobj) (e : exn) :
  errors_ResampleError = None ->
  time_series_try df = Raise e ->
  isinstance_exn e TypeError = false ->
  isinstance_exn e ValueError = false ->
  create_time_series_plot df =
  Raise (mkExn AttributeError
           (u "module 'pandas.errors' has no attribute 'ResampleError'")).
Proof.
  intros Hr H Ht Hv. unfold create_time_series_plot.
  now rewrite H, Hr, Ht, Hv.
Qed.
End ChartFacts.

(** What the handlers of the two builders do with a failure of the
    [try] block: [create_category_plot] re-raises a [TypeError] or a
    [ValueError] as it is and wraps every other failure in a
    [ValueError] whose message ends with the failure's;
    [create_time_series_plot] does the same under the condition that
    the class [pd.errors.ResampleError] named by its second handler
    resolves. *)
Theorem chart_builders_wrap_unexpected_failures
        {PD : Pandas} {PL : Plotting} :
  forall (df : pyobj) (e : exn),
    (category_try df = Raise e ->
     (exists e', create_category_plot df = Raise e')
     /\ (isinstance_exn e TypeError || isinstance_exn e ValueError = false ->
         exists msg,
           create_category_plot df = Raise (mkExn ValueError msg)
           /\ occurs_in (exn_str e) msg))
    /\ (forall resample_error,
           errors_ResampleError = Some resample_error ->
           time_series_try df = Raise e ->
           (exists e', create_time_series_plot df = Raise e')
           /\ (isinstance_exn e TypeError || isinstance_exn e ValueError
               = false ->
               exists msg,
                 create_time_series_plot df = Raise (mkExn ValueError msg)
                 /\ occurs_in (exn_str e) msg)).
Proof.
  intros df e. split.
  - intros Htry. rewrite (create_category_plot_raises df e Htry).
    destruct (isinstance_exn e TypeError || isinstance_exn e ValueError).
    + split; [eauto | discriminate].
    + split; [eauto | intros _].
      eexists. split; [reflexivity | apply suffix_occurs_in].
  - intros resample_error Hr Htry.
    rewrite (create_time_series_plot_raises df e resample_error Hr Htry).
    destruct (isinstance_exn e TypeError || isinstance_exn e ValueError).
    + split; [eauto | discriminate].
    + destruct (isinstance_exn e resample_error);
        (split; [eauto | intros _];
         eexists; split; [reflexivity | apply suffix_occurs_in]).
Qed.

Lemma chart_builders_wrap_unexpected_failures_witness :
  create_category_plot (PL := sample_plotting) empty_frame
  = Raise (mkExn ValueError (u "予期せぬエラーが発生しました: nothing to plot"))
  /\ create_time_series_plot (PD := sample_pandas) (PL := sample_plotting)
       empty_frame
     = Raise (mkExn ValueError (u "予期せぬエラーが発生しました: nothing to plot"))
  /\ (exists msg,
        create_category_plot (PL := sample_plotting) empty_frame
        = Raise (mkExn ValueError msg)
        /\ occurs_in (u "nothing to plot") msg)
  /\ exists msg,
      create_time_series_plot (PD := sample_pandas) (PL := sample_plotting)
        empty_frame = Raise (mkExn ValueError msg)
      /\ occurs_in (u "nothing to plot") msg.
Proof.
  split; [vm_compute; reflexivity | split; [vm_compute; reflexivity|]].
  destruct (@chart_builders_wrap_unexpected_failures sample_pandas
              sample_plotting empty_frame
              (mkExn RuntimeError (u "nothing to plot"))) as [Hc Ht].
  destruct (Hc eq_refl) as [_ Hc'].
  destruct (Ht (OtherError "ResampleError") eq_refl eq_refl) as [_ Ht'].
  split; [exact (Hc' eq_refl) | exact (Ht' eq_refl)].
Defined.

Lemma nothing_to_plot_not_in_AttributeError :
  ~ occurs_in (u "nothing to plot")
      (u "module 'pandas.errors' has no attribute 'ResampleError'").
Proof.
  intros H. apply contains_occurs_in in H. vm_compute in H. discriminate.
Qed.

(** C8, where the code departs from it: with a pandas whose [errors]
    module has no [ResampleError], a [RuntimeError] raised inside the
    [try] block of [create_time_series_plot] (neither a [TypeError] nor
    a [ValueError]) reaches the caller as the [AttributeError] of the
    second handler's class expression: not a [ValueError], and without
    the message of the original failure.  [create_category_plot],
    which has no such handler, wraps the same failure in a
    [ValueError] that carries its message. *)
Theorem create_time_series_plot_unexpected_failure_escapes :
  time_series_try (PL := sample_plotting) empty_frame
  = Raise (mkExn RuntimeError (u "nothing to plot"))
  /\ isinstance_exn (mkExn RuntimeError (u "nothing to plot")) TypeError
     || isinstance_exn (mkExn RuntimeError (u "nothing to plot")) ValueError
     = false
  /\ create_time_series_plot (PD := pandas_without_ResampleError)
       (PL := sample_plotting) empty_frame
     = Raise (mkExn AttributeError
                (u "module 'pandas.errors' has no attribute 'ResampleError'"))
  /\ isinstance_exn
       (mkExn AttributeError
          (u "module 'pandas.errors' has no attribute 'ResampleError'"))
       ValueError = false
  /\ ~ occurs_in (u "nothing to plot")
         (u "module 'pandas.errors' has no attribute 'ResampleError'")
  /\ create_category_plot (PL := sample_plotting) empty_frame
     = Raise (mkExn ValueError
                (u "予期せぬエラーが発生しました: nothing to plot")).
Proof.
  split; [reflexivity | split; [reflexivity|]].
  split; [vm_compute; reflexivity | split; [reflexivity|]].
  split; [exact nothing_to_plot_not_in_AttributeError|].
  vm_compute. reflexivity.
Qed.

(** ** The word-frequency analyser: validation *)

Section BlankTexts.
Context {UCD : Unicode}.

Lemma lstrip_nil (s : pystr) : lstrip s = [] <-> forallb isspace s = true.
Proof.
  induction s as [|c s IH]; simpl; [tauto|].
  destruct (isspace c); simpl; [exact IH|]. split; discriminate.
Qed.

Lemma lstrip_all_space (s : pystr) :
  forallb isspace (lstrip s) = true -> lstrip s = [].
Proof.
  induction s as [|c s IH]; simpl; [reflexivity|].
  destruct (isspace c) eqn:E; [exact IH|].
  simpl. rewrite E. discriminate.
Qed.

Lemma forallb_rev (f : N -> bool) (s : pystr) :
  forallb f (rev s) = forallb f s.
Proof.
  induction s as [|c s IH]; simpl; [reflexivity|].
  rewrite forallb_app, IH. simpl. rewrite andb_true_r. apply andb_comm.
Qed.

(** [not s.strip()] holds exactly of the strings made of whitespace. *)
Lemma strip_nil (s : pystr) : strip s = [] <-> forallb isspace s = true.
Proof.
  unfold strip. split.
  - intros H. apply lstrip_nil, lstrip_all_space.
    rewrite <- forallb_rev. apply lstrip_nil.
    rewrite <- (rev_involutive (lstrip _)), H. reflexivity.
  - intros H. apply lstrip_nil in H. rewrite H. reflexivity.
Qed.

Lemma join_all_space (l : list pystr) :
  forallb isspace (join (u " ") l) = forallb (forallb isspace) l.
Proof.
  induction l as [|x l IH]; [reflexivity|].
  destruct l as [|y l].
  - simpl. now rewrite andb_true_r.
  - change (join (u " ") (x :: y :: l))
      with (x ++ [32%N] ++ join (u " ") (y :: l)).
    rewrite !forallb_app, IH. simpl forallb at 2.
    rewrite isspace_SPACE. reflexivity.
Qed.

Lemma all_text_blank (l : list scalar) :
  forallb isspace (join (u " ") (map py_str (filter pd_notna l)))
  = negb (existsb usable l).
Proof.
  rewrite join_all_space. induction l as [|x l IH]; [reflexivity|].
  simpl. unfold usable at 1. destruct (pd_notna x); simpl.
  - rewrite IH. now rewrite negb_orb, negb_involutive.
  - exact IH.
Qed.

(** The emptiness check of [get_top_words] in terms of the texts. *)
Lemma strip_all_text (l : list scalar) :
  strip (join (u " ") (map py_str (filter pd_notna l))) = []
  <-> existsb usable l = false.
Proof.
  rewrite strip_nil, all_text_blank. apply negb_true_iff.
Qed.
End BlankTexts.

Section Validation.
Context {UCD : Unicode} {SEG : Segmenter}.

Lemma get_top_words_of_try (texts : pyobj) (n : Z) (tech_only : bool)
      (e : exn) :
  top_words_try texts n tech_only = Raise e ->
  isinstance_exn e TypeError || isinstance_exn e ValueError = true ->
  get_top_words texts n tech_only = Raise e.
Proof.
  intros H E. unfold get_top_words. now rewrite H, E.
Qed.

Lemma get_top_words_ok (texts : pyobj) (n : Z) (tech_only : bool)
      (result : counter) :
  get_top_words texts n tech_only = Ok result
  <-> top_words_try texts n tech_only = Ok result.
Proof.
  unfold get_top_words.
  destruct (top_words_try texts n tech_only) as [r|e]; [tauto|].
  destruct (isinstance_exn e TypeError || isinstance_exn e ValueError);
    split; discriminate.
Qed.
End Validation.

(** C4: [get_top_words] raises a [TypeError] on every argument that is
    neither a list nor a Series, and a [ValueError] (the empty-input
    error) on the empty sequence and on every sequence none of whose
    entries is a non-null text with a non-whitespace character. *)
Theorem get_top_words_rejects_bad_input {UCD : Unicode} {SEG : Segmenter} :
  forall (texts : pyobj) (n : Z) (tech_only : bool),
    (is_sequence texts = false ->
     get_top_words texts n tech_only
     = Raise (mkExn TypeError
                (u "入力はリストまたはSeriesである必要があります")))
    /\ (is_sequence texts = true -> iter_texts texts = [] ->
        get_top_words texts n tech_only
        = Raise (mkExn ValueError (u "入力テキストが空です")))
    /\ (is_sequence texts = true -> iter_texts texts <> [] ->
        existsb usable (iter_texts texts) = false ->
        get_top_words texts n tech_only
        = Raise (mkExn ValueError (u "有効なテキストが存在しません"))).
Proof.
  intros texts n tech_only. repeat split.
  - intros Hseq. apply get_top_words_of_try; [|reflexivity].
    destruct texts; try discriminate; reflexivity.
  - intros Hseq Hnil. apply get_top_words_of_try; [|reflexivity].
    destruct texts; try discriminate; simpl in Hnil; subst; reflexivity.
  - intros Hseq Hne Hblank. apply get_top_words_of_try; [|reflexivity].
    apply strip_all_text in Hblank. unfold top_words_try.
    destruct texts as [x | l | l | l | keys | df]; try discriminate;
      simpl in Hne, Hblank |- *;
      (destruct l as [|t l]; [congruence|]);
      cbn [bind]; rewrite Hblank; reflexivity.
Qed.

Lemma get_top_words_rejects_bad_input_witness :
  get_top_words (ObjScalar (SInt 123)) 50 false
  = Raise (mkExn TypeError (u "入力はリストまたはSeriesである必要があります"))
  /\ get_top_words (ObjList []) 50 false
     = Raise (mkExn ValueError (u "入力テキストが空です"))
  /\ get_top_words (ObjSeries [SNaN; SStr (u "   "); SNone]) 50 false
     = Raise (mkExn ValueError (u "有効なテキストが存在しません")).
Proof.
  destruct (@get_top_words_rejects_bad_input sample_unicode sample_segmenter
              (ObjScalar (SInt 123)) 50 false) as [H1 _].
  destruct (@get_top_words_rejects_bad_input sample_unicode sample_segmenter
              (ObjList []) 50 false) as [_ [H2 _]].
  destruct (@get_top_words_rejects_bad_input sample_unicode sample_segmenter
              (ObjSeries [SNaN; SStr (u "   "); SNone]) 50 false)
    as [_ [_ H3]].
  split; [exact (H1 eq_refl) | split; [exact (H2 eq_refl eq_refl)|]].
  apply H3; [reflexivity | discriminate | vm_compute; reflexivity].
Defined.

(** ** Counters, [most_common] and [dict] *)

Section CounterFacts.

Lemma In_firstn {A} (n : nat) (l : list A) (x : A) :
  In x (firstn n l) -> In x l.
Proof.
  revert n; induction l as [|y l IH]; intros [|n]; simpl; try tauto.
  intros [H | H]; [auto | right; eapply IH; eauto].
Qed.

Lemma keys_counter_incr (w : pystr) (c : counter) :
  keys (counter_incr w c) = if mem w (keys c) then keys c else keys c ++ [w].
Proof.
  unfold keys, mem. induction c as [|[k v] c IH]; simpl; [reflexivity|].
  rewrite (pystr_eqb_sym w k). destruct (pystr_eqb k w); simpl; [reflexivity|].
  rewrite IH. destruct (existsb (pystr_eqb w) (map fst c)); reflexivity.
Qed.

Lemma NoDup_keys_counter_incr (w : pystr) (c : counter) :
  NoDup (keys c) -> NoDup (keys (counter_incr w c)).
Proof.
  intros H. rewrite keys_counter_incr. destruct (mem w (keys c)) eqn:M; auto.
  apply mem_false_not_In in M.
  apply NoDup_app; auto.
  - repeat constructor. simpl. tauto.
  - intros x Hx [<- | []]. exact (M Hx).
Qed.

Lemma lookup_counter_incr (k w : pystr) (c : counter) :
  lookup k (counter_incr w c)
  = (lookup k c + if pystr_eqb w k then 1 else 0)%Z.
Proof.
  induction c as [|[k' v] c IH]; simpl.
  - destruct (pystr_eqb w k); reflexivity.
  - destruct (pystr_eqb k' w) eqn:E; simpl.
    + apply pystr_eqb_eq in E. subst k'.
      destruct (pystr_eqb w k); lia.
    + destruct (pystr_eqb k' k) eqn:F; [|exact IH].
      apply pystr_eqb_eq in F. subst k'. rewrite (pystr_eqb_sym w k), E. lia.
Qed.

Lemma In_lookup (k : pystr) (v : Z) (c : counter) :
  NoDup (keys c) -> (In (k, v) c <-> In k (keys c) /\ lookup k c = v).
Proof.
  unfold keys. induction c as [|[k' v'] c IH]; simpl; [tauto|].
  intros Hnd. inversion Hnd as [|? ? Hnot Hnd']; subst.
  specialize (IH Hnd'). destruct (pystr_eqb k' k) eqn:E.
  - apply pystr_eqb_eq in E. subst k'. split.
    + intros [H | H]; [inversion H; auto|].
      exfalso. apply Hnot. apply IH in H. tauto.
    + intros [_ <-]. auto.
  - assert (k' <> k) by (intros ->; rewrite pystr_eqb_refl in E; discriminate).
    split.
    + intros [H0 | H0]; [inversion H0; congruence|]. apply IH in H0. tauto.
    + intros [[H0 | H0] Hv]; [congruence|]. right. apply IH. tauto.
Qed.

Lemma Counter_snoc (words : list pystr) (w : pystr) :
  Counter (words ++ [w]) = counter_incr w (Counter words).
Proof. unfold Counter. now rewrite fold_left_app. Qed.

Lemma occurrences_snoc (k w : pystr) (words : list pystr) :
  occurrences k (words ++ [w])
  = (occurrences k words + if pystr_eqb w k then 1 else 0)%Z.
Proof.
  unfold occurrences. rewrite filter_app, length_app. simpl.
  rewrite (pystr_eqb_sym k w). destruct (pystr_eqb w k); simpl; lia.
Qed.

Lemma occurrences_pos (k : pystr) (words : list pystr) :
  In k words -> (1 <= occurrences k words)%Z.
Proof.
  intros H. unfold occurrences.
  assert (In k (filter (pystr_eqb k) words)).
  { apply filter_In. split; [exact H | apply pystr_eqb_refl]. }
  destruct (filter (pystr_eqb k) words); [contradiction | simpl; lia].
Qed.

(** [Counter(words)] holds each distinct word once, with the number
    of its occurrences. *)
Lemma Counter_spec (words : list pystr) :
  NoDup (keys (Counter words))
  /\ (forall k, In k (keys (Counter words)) <-> In k words)
  /\ (forall k, lookup k (Counter words) = occurrences k words).
Proof.
  induction words as [|w words IH] using rev_ind.
  - split; [constructor | split; [simpl; tauto | reflexivity]].
  - destruct IH as [Hnd [Hkeys Hlook]]. rewrite Counter_snoc.
    split; [now apply NoDup_keys_counter_incr | split].
    + intros k. rewrite keys_counter_incr, in_app_iff.
      destruct (mem w (keys (Counter words))) eqn:M.
      * apply mem_In in M. rewrite Hkeys in *. simpl.
        split; [tauto | intros [H | [<- | []]]; auto].
      * rewrite in_app_iff, Hkeys. tauto.
    + intros k. now rewrite lookup_counter_incr, occurrences_snoc, Hlook.
Qed.

Lemma In_Counter (k : pystr) (v : Z) (words : list pystr) :
  In (k, v) (Counter words) <-> In k words /\ v = occurrences k words.
Proof.
  destruct (Counter_spec words) as [Hnd [Hkeys Hlook]].
  rewrite (In_lookup k v (Counter words) Hnd), Hkeys, Hlook.
  split; intros [? ?]; auto.
Qed.

Lemma occurrences_filter (f : pystr -> bool) (k : pystr)
      (words : list pystr) :
  occurrences k (filter f words)
  = if f k then occurrences k words else 0%Z.
Proof.
  unfold occurrences. induction words as [|w words IH]; simpl.
  - destruct (f k); reflexivity.
  - destruct (f w) eqn:Fw; simpl; destruct (pystr_eqb k w) eqn:E; simpl;
      try exact IH.
    + apply pystr_eqb_eq in E. subst w. rewrite Fw in *. simpl. lia.
    + apply pystr_eqb_eq in E. subst w. rewrite Fw in *. exact IH.
Qed.

Lemma insert_desc_perm (x : pystr * Z) (l : counter) :
  Permutation (insert_desc x l) (x :: l).
Proof.
  induction l as [|y l IH]; simpl; [reflexivity|].
  destruct (snd x <? snd y)%Z; [|reflexivity].
  rewrite IH. apply perm_swap.
Qed.

Lemma sorted_desc_perm (l : counter) : Permutation (sorted_desc l) l.
Proof.
  induction l as [|x l IH]; simpl; [reflexivity|].
  rewrite insert_desc_perm. now constructor.
Qed.

Lemma insert_desc_sorted (x : pystr * Z) (l : counter) :
  Sorted (fun a b => (snd b <= snd a)%Z) l ->
  Sorted (fun a b => (snd b <= snd a)%Z) (insert_desc x l).
Proof.
  induction 1 as [|y l Hs IH Hhd]; simpl.
  - repeat constructor.
  - destruct (snd x <? snd y)%Z eqn:E.
    + apply Z.ltb_lt in E. constructor; [exact IH|].
      destruct l as [|z l]; simpl.
      * constructor. lia.
      * destruct (snd x <? snd z)%Z; constructor; [|lia].
        inversion Hhd; assumption.
    + apply Z.ltb_ge in E. repeat constructor; assumption.
Qed.

Lemma sorted_desc_descending (l : counter) : descending (sorted_desc l).
Proof.
  apply Sorted_StronglySorted.
  - intros a b c Hab Hbc. lia.
  - induction l as [|x l IH]; simpl; [constructor|].
    now apply insert_desc_sorted.
Qed.

Lemma firstn_descending (n : nat) (l : counter) :
  descending l -> descending (firstn n l).
Proof.
  unfold descending. intros H; revert n.
  induction H as [|x l Hs IH Hall]; intros [|n]; simpl; try constructor.
  - apply IH.
  - rewrite Forall_forall in *. intros y Hy. apply Hall.
    eapply In_firstn; eauto.
Qed.

Lemma In_most_common (n : Z) (c : counter) (kv : pystr * Z) :
  In kv (most_common n c) -> In kv c.
Proof.
  unfold most_common. intros H. apply In_firstn in H.
  eapply Permutation_in; [apply sorted_desc_perm | exact H].
Qed.

Lemma most_common_all (n : Z) (c : counter) :
  (Z.of_nat (length c) <= n)%Z -> Permutation (most_common n c) c.
Proof.
  intros H. unfold most_common. rewrite firstn_all2.
  - apply sorted_desc_perm.
  - rewrite (Permutation_length (sorted_desc_perm c)). lia.
Qed.

Lemma NoDup_firstn {A} (n : nat) (l : list A) :
  NoDup l -> NoDup (firstn n l).
Proof.
  intros H; revert n. induction H as [|x l Hx Hnd IH]; intros [|n]; simpl;
    try constructor; auto.
  intros Hin. apply Hx. eapply In_firstn; eauto.
Qed.

Lemma NoDup_keys_most_common (n : Z) (c : counter) :
  NoDup (keys c) -> NoDup (keys (most_common n c)).
Proof.
  intros H. unfold most_common, keys. rewrite <- firstn_map.
  apply NoDup_firstn.
  eapply Permutation_NoDup; [|exact H].
  apply Permutation_map, Permutation_sym, sorted_desc_perm.
Qed.

Lemma dict_set_fresh (k : pystr) (v : Z) (d : counter) :
  ~ In k (keys d) -> dict_set k v d = d ++ [(k, v)].
Proof.
  unfold keys. induction d as [|[k' v'] d IH]; simpl; [reflexivity|].
  intros H. destruct (pystr_eqb k' k) eqn:E.
  - apply pystr_eqb_eq in E. tauto.
  - rewrite IH; tauto.
Qed.

Lemma dict_from (pairs acc : counter) :
  NoDup (keys (acc ++ pairs)) ->
  fold_left (fun d kv => dict_set (fst kv) (snd kv) d) pairs acc
  = acc ++ pairs.
Proof.
  revert acc; induction pairs as [|[k v] pairs IH]; intros acc H; simpl.
  - now rewrite app_nil_r.
  - assert (E : acc ++ (k, v) :: pairs = (acc ++ [(k, v)]) ++ pairs)
      by now rewrite <- app_assoc.
    rewrite dict_set_fresh.
    + rewrite IH; [now rewrite <- app_assoc | now rewrite <- E].
    + unfold keys in *. rewrite map_app in H. simpl in H.
      apply NoDup_remove_2 in H. rewrite in_app_iff in H. tauto.
Qed.

(** [dict] of pairs with distinct keys keeps them as they are. *)
Lemma dict_NoDup (pairs : counter) : NoDup (keys pairs) -> dict pairs = pairs.
Proof. intros H. unfold dict. now rewrite dict_from. Qed.

(** The mapping [get_top_words] builds from its tokens. *)
Lemma dict_most_common_Counter (n : Z) (words : list pystr) :
  dict (most_common n (Counter words)) = most_common n (Counter words).
Proof.
  apply dict_NoDup, NoDup_keys_most_common, Counter_spec.
Qed.
End CounterFacts.

(** ** The word-frequency analyser: counting *)

Section TopWordsFacts.
Context {UCD : Unicode} {SEG : Segmenter}.

(** On a sequence with a usable text, with the tagger built and the
    stop words loaded, the [try] block returns the top of the counts
    of the kept tokens. *)
Lemma top_words_try_valid (texts : pyobj) (n : Z) (tech_only : bool)
      (parse : pystr -> pystr) (base : list pystr) :
  is_sequence texts = true ->
  existsb usable (iter_texts texts) = true ->
  MeCab_Tagger (u "-Owakati") = Ok parse ->
  base_stop_words = Ok base ->
  top_words_try texts n tech_only
  = Ok (most_common n
          (Counter (kept_words tech_only (base ++ TWITTER_STOP_WORDS)
                      (tokenize parse texts)))).
Proof.
  intros Hseq Huse Htag Hbase. unfold top_words_try.
  assert (Hval : _validate_input texts = Ok tt).
  { destruct texts as [x | l | l | l | ks | df]; try discriminate;
      destruct l; try discriminate; reflexivity. }
  rewrite Hval. cbn [bind].
  destruct (strip _) eqn:Hstrip.
  - apply strip_all_text in Hstrip. congruence.
  - rewrite Htag. cbn [bind]. rewrite Hbase. cbn [bind].
    unfold kept_words.
    destruct tech_only; now rewrite dict_most_common_Counter.
Qed.

Lemma top_words_try_inv (texts : pyobj) (n : Z) (tech_only : bool)
      (result : counter) :
  top_words_try texts n tech_only = Ok result ->
  is_sequence texts = true
  /\ existsb usable (iter_texts texts) = true
  /\ exists parse base,
      MeCab_Tagger (u "-Owakati") = Ok parse
      /\ base_stop_words = Ok base
      /\ result
         = most_common n
             (Counter (kept_words tech_only (base ++ TWITTER_STOP_WORDS)
                         (tokenize parse texts))).
Proof.
  intros H.
  assert (Hseq : is_sequence texts = true).
  { destruct texts; try reflexivity; discriminate. }
  assert (Huse : existsb usable (iter_texts texts) = true).
  { destruct (existsb usable (iter_texts texts)) eqn:E; [reflexivity|].
    apply strip_all_text in E. unfold top_words_try in H.
    destruct (_validate_input texts); [|discriminate].
    cbn [bind] in H. rewrite E in H. discriminate. }
  split; [exact Hseq | split; [exact Huse|]].
  destruct (MeCab_Tagger (u "-Owakati")) as [parse|e] eqn:Htag.
  - destruct base_stop_words as [base|e] eqn:Hbase.
    + exists parse, base.
      rewrite (top_words_try_valid texts n tech_only parse base) in H
        by assumption.
      inversion H. auto.
    + exfalso. unfold top_words_try in H.
      destruct (_validate_input texts); [|discriminate]. cbn [bind] in H.
      destruct (strip _); [discriminate|].
      rewrite Htag in H. cbn [bind] in H. rewrite Hbase in H. discriminate.
  - exfalso. unfold top_words_try in H.
    destruct (_validate_input texts); [|discriminate]. cbn [bind] in H.
    destruct (strip _); [discriminate|].
    rewrite Htag in H. discriminate.
Qed.

Lemma forallb_false_exists (f : N -> bool) (s : pystr) :
  forallb f s = false <-> exists ch, In ch s /\ f ch = false.
Proof.
  induction s as [|c s IH]; simpl.
  - split; [discriminate | intros [ch [[] _]]].
  - rewrite andb_false_iff, IH. split.
    + intros [H | [ch [Hin H]]]; eauto.
    + intros [ch [[<- | Hin] H]]; eauto.
Qed.

Lemma keep_default_passes (stop_words : list pystr) (w : pystr) :
  keep_default stop_words w = true <-> passes_default stop_words w.
Proof.
  unfold keep_default, passes_default.
  rewrite !andb_true_iff, !negb_true_iff, mem_false_not_In, Nat.ltb_lt,
    forallb_false_exists.
  tauto.
Qed.


Lemma In_counted (f : pystr -> bool) (words : list pystr) (w : pystr) (c : Z) :
  In (w, c) (Counter (filter f words))
  <-> In w words /\ f w = true /\ c = occurrences w words.
Proof.
  rewrite In_Counter, filter_In, occurrences_filter.
  split.
  - intros [[Hin Hf] Hc]. rewrite Hf in Hc. auto.
  - intros [Hin [Hf Hc]]. rewrite Hf. auto.
Qed.
End TopWordsFacts.

(** C5: in the default mode the table that is counted has an entry
    for a word exactly when the word is a token whose lower-cased form
    is not a stop word, that is longer than one character, that is not
    made of digits only and that has a non-ASCII character, and the
    entry is the number of the token's occurrences; the result is the
    top [n] of that table, so a token failing any of the conditions is
    no key of the result. *)
Theorem get_top_words_default_mode_counts
        {UCD : Unicode} {SEG : Segmenter} :
  forall (texts : pyobj) (n : Z) (result : counter),
    get_top_words texts n false = Ok result ->
    exists parse base counts,
      MeCab_Tagger (u "-Owakati") = Ok parse
      /\ base_stop_words = Ok base
      /\ result = most_common n counts
      /\ (forall w c,
             In (w, c) counts
             <-> In w (tokenize parse texts)
                 /\ passes_default (base ++ TWITTER_STOP_WORDS) w
                 /\ c = occurrences w (tokenize parse texts))
      /\ (forall w c,
             In (w, c) result ->
             passes_default (base ++ TWITTER_STOP_WORDS) w
             /\ c = occurrences w (tokenize parse texts))
      /\ (forall w,
             In w (tokenize parse texts) ->
             ~ passes_default (base ++ TWITTER_STOP_WORDS) w ->
             ~ In w (keys result)).
Proof.
  intros texts n result H.
  apply get_top_words_ok, top_words_try_inv in H.
  destruct H as [_ [_ [parse [base [Htag [Hbase Hres]]]]]].
  set (stop := base ++ TWITTER_STOP_WORDS) in *.
  set (words := tokenize parse texts) in *.
  exists parse, base, (Counter (kept_words false stop words)).
  assert (Hcounts : forall w c,
             In (w, c) (Counter (kept_words false stop words))
             <-> In w words /\ passes_default stop w
                 /\ c = occurrences w words).
  { intros w c. unfold kept_words. rewrite In_counted, keep_default_passes.
    reflexivity. }
  assert (Hin : forall w c, In (w, c) result ->
                            passes_default stop w /\ c = occurrences w words).
  { intros w c Hwc. subst result. apply In_most_common, Hcounts in Hwc. tauto. }
  split; [exact Htag | split; [exact Hbase | split; [exact Hres|]]].
  split; [exact Hcounts | split; [exact Hin|]].
  intros w Hw Hfail Hkey. unfold keys in Hkey. apply in_map_iff in Hkey.
  destruct Hkey as [[w' c] [Hfst Hwc]]. simpl in Hfst. subst w'.
  apply Hin in Hwc. tauto.
Qed.

Lemma get_top_words_default_mode_counts_witness :
  get_top_words sample_texts 50 false
  = Ok [ (u "プログラミング", 2%Z); (u "言語", 1%Z); (u "について", 1%Z);
         (u "データ", 1%Z); (u "分析", 1%Z); (u "機械学習", 1%Z) ]
  /\ exists parse base counts,
      MeCab_Tagger (u "-Owakati") = Ok parse
      /\ base_stop_words = Ok base
      /\ [ (u "プログラミング", 2%Z); (u "言語", 1%Z); (u "について", 1%Z);
           (u "データ", 1%Z); (u "分析", 1%Z); (u "機械学習", 1%Z) ]
         = most_common 50 counts.
Proof.
  assert (E : get_top_words sample_texts 50 false
              = Ok [ (u "プログラミング", 2%Z); (u "言語", 1%Z);
                     (u "について", 1%Z); (u "データ", 1%Z);
                     (u "分析", 1%Z); (u "機械学習", 1%Z) ])
    by (vm_compute; reflexivity).
  split; [exact E|].
  destruct (@get_top_words_default_mode_counts sample_unicode
              sample_segmenter sample_texts 50 _ E)
    as [parse [base [counts [Ht [Hb [Hr _]]]]]].
  exists parse, base, counts. auto.
Defined.

(** C6: for a limit that is not negative, a mapping returned by
    [get_top_words] has at most [n] entries, every count in it is at
    least 1, and its entries are in descending order of count. *)
Theorem get_top_words_bounded_positive_descending
        {UCD : Unicode} {SEG : Segmenter} :
  forall (texts : pyobj) (n : Z) (tech_only : bool) (result : counter),
    (0 <= n)%Z ->
    get_top_words texts n tech_only = Ok result ->
    (Z.of_nat (length result) <= n)%Z
    /\ Forall (fun kv => (1 <= snd kv)%Z) result
    /\ descending result.
Proof.
  intros texts n tech_only result Hn H.
  apply get_top_words_ok, top_words_try_inv in H.
  destruct H as [_ [_ [parse [base [_ [_ Hres]]]]]]. subst result.
  split; [|split].
  - unfold most_common. rewrite length_firstn. lia.
  - apply Forall_forall. intros [w c] Hin. apply In_most_common in Hin.
    unfold kept_words in Hin. apply In_counted in Hin.
    destruct Hin as [Hw [_ ->]]. simpl.
    now apply occurrences_pos.
  - unfold most_common. apply firstn_descending, sorted_desc_descending.
Qed.

Lemma get_top_words_bounded_positive_descending_witness :
  get_top_words sample_texts 2 false
  = Ok [ (u "プログラミング", 2%Z); (u "言語", 1%Z) ]
  /\ (Z.of_nat (length [ (u "プログラミング", 2%Z); (u "言語", 1%Z) ]) <= 2)%Z
  /\ descending [ (u "プログラミング", 2%Z); (u "言語", 1%Z) ].
Proof.
  assert (E : get_top_words sample_texts 2 false
              = Ok [ (u "プログラミング", 2%Z); (u "言語", 1%Z) ])
    by (vm_compute; reflexivity).
  split; [exact E|].
  destruct (@get_top_words_bounded_positive_descending sample_unicode
              sample_segmenter sample_texts 2 false _ ltac:(lia) E)
    as [Hlen [_ Hdesc]].
  split; assumption.
Defined.

Lemma base_stop_words_LookupError {SEG : Segmenter} (e : exn) :
  stopwords_words (u "japanese") = Raise e ->
  isinstance_exn e LookupError = true ->
  base_stop_words = Ok [].
Proof. intros H E. unfold base_stop_words. now rewrite H, E. Qed.

(** C7: when [stopwords.words] raises a [LookupError] (the corpus is
    not installed), [get_top_words] does on every input what it does
    with an empty corpus; on a sequence with a usable text, the tagger
    built, it returns the top of the counts of the tokens kept with the
    added stop words alone. *)
Theorem get_top_words_without_corpus {UCD : Unicode} :
  forall (SEG : Segmenter) (e : exn) (texts : pyobj) (n : Z)
         (tech_only : bool),
    @stopwords_words SEG (u "japanese") = Raise e ->
    isinstance_exn e LookupError = true ->
    @get_top_words UCD SEG texts n tech_only
    = @get_top_words UCD (with_stopwords SEG (fun _ => Ok [])) texts n
        tech_only
    /\ (forall parse,
           @MeCab_Tagger SEG (u "-Owakati") = Ok parse ->
           is_sequence texts = true ->
           existsb usable (iter_texts texts) = true ->
           @get_top_words UCD SEG texts n tech_only
           = Ok (most_common n
                   (Counter (kept_words tech_only TWITTER_STOP_WORDS
                               (tokenize parse texts))))).
Proof.
  intros SEG e texts n tech_only He HLookup.
  pose proof (base_stop_words_LookupError e He HLookup) as Hbase.
  split.
  - unfold get_top_words, top_words_try. rewrite Hbase. reflexivity.
  - intros parse Htag Hseq Huse. apply get_top_words_ok.
    now rewrite (top_words_try_valid texts n tech_only parse [] Hseq Huse
                   Htag Hbase).
Qed.

Lemma get_top_words_without_corpus_witness :
  @get_top_words sample_unicode sample_segmenter sample_texts 2 false
  = @get_top_words sample_unicode
      (with_stopwords sample_segmenter (fun _ => Ok [])) sample_texts 2 false
  /\ @get_top_words sample_unicode sample_segmenter sample_texts 2 false
     = Ok [ (u "プログラミング", 2%Z); (u "言語", 1%Z) ].
Proof.
  destruct (@get_top_words_without_corpus sample_unicode sample_segmenter
              (mkExn LookupError (u "Resource stopwords not found."))
              sample_texts 2 false eq_refl eq_refl) as [H1 H2].
  split; [exact H1|].
  rewrite (H2 (fun text => text) eq_refl eq_refl eq_refl).
  vm_compute. reflexivity.
Defined.

(** C9: on a sequence that holds a text with a non-whitespace
    character, with the tagger built and the stop words loaded,
    [get_top_words] returns the empty mapping when the filter of the
    mode keeps none of the tokens: the emptiness check looks at the
    joined raw texts, before tokenization and filtering, and nothing is
    raised afterwards. *)
Theorem get_top_words_all_tokens_filtered
        {UCD : Unicode} {SEG : Segmenter} :
  forall (texts : pyobj) (n : Z) (tech_only : bool)
         (parse : pystr -> pystr) (base : list pystr),
    is_sequence texts = true ->
    existsb usable (iter_texts texts) = true ->
    MeCab_Tagger (u "-Owakati") = Ok parse ->
    base_stop_words = Ok base ->
    kept_words tech_only (base ++ TWITTER_STOP_WORDS) (tokenize parse texts)
    = [] ->
    get_top_words texts n tech_only = Ok [].
Proof.
  intros texts n tech_only parse base Hseq Huse Htag Hbase Hnone.
  apply get_top_words_ok.
  rewrite (top_words_try_valid texts n tech_only parse base Hseq Huse
             Htag Hbase), Hnone.
  unfold most_common. destruct (Z.to_nat n); reflexivity.
Qed.

Lemma get_top_words_all_tokens_filtered_witness :
  tokenize (fun text => text) ascii_texts
  = [u "hello"; u "world"; u "2023"]
  /\ get_top_words ascii_texts 50 false = Ok []
  /\ get_top_words ascii_texts 50 true = Ok [].
Proof.
  split; [vm_compute; reflexivity|].
  split.
  - apply (@get_top_words_all_tokens_filtered sample_unicode sample_segmenter
             ascii_texts 50 false (fun text => text) []);
      vm_compute; reflexivity.
  - apply (@get_top_words_all_tokens_filtered sample_unicode sample_segmenter
             ascii_texts 50 true (fun text => text) []);
      vm_compute; reflexivity.
Defined.




(** ** More on the loader *)

Lemma issubclass_leaf (c d : exn_class) :
  (d = EmptyDataError \/ d = ParserError \/ d = FileNotFoundError) ->
  issubclass c d = true -> c = d.
Proof.
  intros [-> | [-> | ->]]; destruct c; vm_compute; congruence.
Qed.

(** X1: on a resource without a header line [load_data] fails after
    the header read alone: a missing file raises [FileNotFoundError], an
    empty file [EmptyDataError], both as pandas raised them; any other
    failure of the read is re-raised when it is one of these two or a
    [ParserError] and is otherwise turned into a [ParserError] with the
    same message. *)
Theorem load_data_without_header {PD : Pandas} :
  forall (fs : filesystem) (path : pystr) (log : list io_event),
    (fs path = Missing ->
     load_data fs path log
     = (Raise (mkExn FileNotFoundError (msg_no_such_file path)),
        log ++ [ReadHeader path]))
    /\ (fs path = Csv [] ->
        load_data fs path log
        = (Raise (mkExn EmptyDataError msg_no_columns),
           log ++ [ReadHeader path]))
    /\ (forall e,
           fs path = Unreadable e ->
           load_data fs path log
           = (Raise (if isinstance_exn e EmptyDataError
                        || isinstance_exn e ParserError
                        || isinstance_exn e FileNotFoundError
                     then e else mkExn ParserError (exn_str e)),
              log ++ [ReadHeader path])).
Proof.
  intros fs path log. split; [|split].
  - intros Hfs.
    unfold load_data, bindIO, try_except, read_csv_nrows0, open_header.
    rewrite Hfs. reflexivity.
  - intros Hfs.
    unfold load_data, bindIO, try_except, read_csv_nrows0, open_header.
    rewrite Hfs. reflexivity.
  - intros e Hfs.
    unfold load_data, bindIO, try_except, read_csv_nrows0, open_header.
    rewrite Hfs. cbn [bind].
    destruct (isinstance_exn e EmptyDataError); [reflexivity|].
    destruct (isinstance_exn e ParserError); [reflexivity|].
    destruct (isinstance_exn e FileNotFoundError); reflexivity.
Qed.

Lemma load_data_without_header_witness :
  load_data (PD := sample_pandas) sample_fs (u "not_exists.csv") []
  = (Raise (mkExn FileNotFoundError
              (u "[Errno 2] No such file or directory: 'not_exists.csv'")),
     [ReadHeader (u "not_exists.csv")])
  /\ fst (load_data (PD := sample_pandas) sample_fs (u "empty.csv") [])
     = Raise (mkExn EmptyDataError (u "No columns to parse from file"))
  /\ fst (load_data (PD := sample_pandas) locked_fs (u "bookmarks.csv") [])
     = Raise (mkExn ParserError (u "[Errno 13] Permission denied")).
Proof.
  destruct (@load_data_without_header sample_pandas sample_fs
              (u "not_exists.csv") []) as [H1 _].
  destruct (@load_data_without_header sample_pandas sample_fs
              (u "empty.csv") []) as [_ [H2 _]].
  destruct (@load_data_without_header sample_pandas locked_fs
              (u "bookmarks.csv") []) as [_ [_ H3]].
  split; [|split].
  - rewrite (H1 eq_refl). vm_compute. reflexivity.
  - rewrite (H2 eq_refl). reflexivity.
  - rewrite (H3 _ eq_refl). vm_compute. reflexivity.
Defined.

(** X2: a failure of the full read leaves [load_data] as it was raised,
    whatever its kind, after both reads; every other failure that
    [load_data] raises is a [FileNotFoundError] or a [ValueError]
    (which [EmptyDataError] and [ParserError] are). *)
Theorem load_data_raises_only {PD : Pandas} :
  forall (fs : filesystem) (path : pystr) (log : list io_event) (e : exn),
    (forall log',
        load_data fs path log = (Raise e, log') ->
        isinstance_exn e FileNotFoundError || isinstance_exn e ValueError
        = true
        \/ fst (read_csv fs path []) = Raise e)
    /\ (forall header,
           header_line (fs path) = Some header ->
           (forall col, In col REQUIRED_COLUMNS -> In col header) ->
           fst (read_csv fs path []) = Raise e ->
           load_data fs path log
           = (Raise e, log ++ [ReadHeader path; ReadAll path])).
Proof.
  intros fs path log e. split.
  - intros log' H.
    destruct (header_line (fs path)) as [header|] eqn:Hh.
    + rewrite (load_data_stages fs path header log Hh) in H.
      destruct (missing_columns_of header); [|inversion H; left; reflexivity].
      cbv zeta in H.
      destruct (fst (read_csv fs path [])) as [raw_df|e0].
      * destruct (bind _ to_datetime); inversion H. left. reflexivity.
      * inversion H. right. reflexivity.
    + left. unfold header_line in Hh.
      destruct (fs path) as [| e0 | [|header data] | h e0] eqn:Hfs;
        try discriminate.
      * destruct (load_data_without_header fs path log) as [H1 _].
        rewrite (H1 Hfs) in H. inversion H. reflexivity.
      * destruct (load_data_without_header fs path log) as [_ [_ H3]].
        rewrite (H3 e0 Hfs) in H. inversion H; subst e log'; clear H.
        destruct (isinstance_exn e0 EmptyDataError) eqn:E1.
        { apply issubclass_leaf in E1; auto.
          unfold isinstance_exn. cbn [orb]. rewrite E1. reflexivity. }
        destruct (isinstance_exn e0 ParserError) eqn:E2.
        { apply issubclass_leaf in E2; auto.
          unfold isinstance_exn. cbn [orb]. rewrite E2. reflexivity. }
        destruct (isinstance_exn e0 FileNotFoundError) eqn:E3.
        { cbn [orb]. rewrite E3. reflexivity. }
        reflexivity.
      * destruct (load_data_without_header fs path log) as [_ [H2 _]].
        rewrite (H2 Hfs) in H. inversion H. reflexivity.
  - intros header Hh Hreq Hraise.
    rewrite (load_data_stages fs path header log Hh).
    destruct (missing_columns_of header) as [|c l] eqn:Hm.
    + cbv zeta. rewrite Hraise, <- app_assoc. reflexivity.
    + exfalso.
      assert (Hc : In c (missing_columns_of header)) by (rewrite Hm; now left).
      apply filter_In in Hc. destruct Hc as [Hin Hmem].
      apply Hreq, mem_In in Hin. rewrite Hin in Hmem. discriminate.
Qed.

Lemma load_data_raises_only_witness :
  load_data (PD := sample_pandas) unreadable_data_fs (u "bookmarks.csv") []
  = (Raise (mkExn OSError (u "[Errno 5] Input/output error")),
     [ReadHeader (u "bookmarks.csv"); ReadAll (u "bookmarks.csv")])
  /\ fst (load_data (PD := sample_pandas) undecodable_fs
            (u "bookmarks.csv") [])
     = Raise (mkExn UnicodeDecodeError
                (u "'utf-8' codec can't decode byte 0xff in position 40: invalid start byte")).
Proof.
  destruct (@load_data_raises_only sample_pandas unreadable_data_fs
              (u "bookmarks.csv") []
              (mkExn OSError (u "[Errno 5] Input/output error")))
    as [_ H1].
  destruct (@load_data_raises_only sample_pandas undecodable_fs
              (u "bookmarks.csv") []
              (mkExn UnicodeDecodeError
                 (u "'utf-8' codec can't decode byte 0xff in position 40: invalid start byte")))
    as [_ H2].
  split.
  - apply (H1 _ eq_refl); [|reflexivity]. intros col Hcol. exact Hcol.
  - rewrite (H2 _ eq_refl); [reflexivity | | reflexivity].
    intros col Hcol. exact Hcol.
Defined.

Lemma index_of_nth (name : pystr) (l : list pystr) (i : nat) :
  index_of name l = Some i -> nth i l [] = name.
Proof.
  revert i; induction l as [|x l IH]; intros i; simpl; [discriminate|].
  destruct (pystr_eqb x name) eqn:E.
  - intros H; inversion H. now apply pystr_eqb_eq.
  - destruct (index_of name l); [|discriminate].
    intros H; inversion H. now apply IH.
Qed.

Lemma nth_replace_nth_other (i j : nat) (v : cell) (r : list cell) :
  i <> j -> nth j (replace_nth i v r) CNaN = nth j r CNaN.
Proof.
  revert j r; induction i as [|i IH]; intros [|j] [|x r] H; simpl; auto;
    try congruence.
Qed.

Lemma column_of_replaced_other (i j : nat) (rs : list (list cell))
      (col : list cell) :
  i <> j -> length col = length rs ->
  map (fun r => nth j r CNaN)
      (zip_with (fun r v => replace_nth i v r) rs col)
  = map (fun r => nth j r CNaN) rs.
Proof.
  intros Hij. revert col; induction rs as [|r rs IH]; intros [|v col]; simpl;
    try discriminate; auto.
  intros H. rewrite nth_replace_nth_other by exact Hij. f_equal. apply IH. lia.
Qed.

(** Assigning an existing column leaves the other columns as they
    were. *)
Lemma getitem_setitem_other (df : DataFrame) (name other : pystr) (i : nat)
      (col : list cell) :
  index_of name (columns df) = Some i ->
  length col = length (rows df) ->
  other <> name ->
  getitem (setitem df name col) other = getitem df other.
Proof.
  intros Hi Hlen Hne. unfold getitem, setitem. rewrite Hi. cbn [columns rows].
  destruct (index_of other (columns df)) as [j|] eqn:Hj; [|reflexivity].
  rewrite column_of_replaced_other; auto.
  intros ->. apply index_of_nth in Hi, Hj. congruence.
Qed.

Lemma read_csv_length {PD : Pandas} (fs : filesystem) (path : pystr)
      (header : list pystr) (data : list (list pystr)) (df : DataFrame) :
  fs path = Csv (header :: data) ->
  fst (read_csv fs path []) = Ok df ->
  columns df = dedup_names header /\ length (rows df) = length data.
Proof.
  intros Hfs. unfold read_csv, open_csv. rewrite Hfs. cbn [fst bind].
  destruct (find_bad_line _ 1 (tl data)) as [[i saw]|]; [discriminate|].
  intros H; inversion H. cbn [columns rows]. now rewrite length_map.
Qed.

(** X3: a successful [load_data] returns the table of the file: its
    columns are the names pandas makes of the header line (as many as
    the header has fields), it has one record for each data line, and
    every column but [tweeted_at] holds what [read_csv] read. *)
Theorem load_data_preserves_table {PD : Pandas} :
  forall (fs : filesystem) (path : pystr) (log log' : list io_event)
         (df : DataFrame),
    load_data fs path log = (Ok df, log') ->
    exists header data raw_df,
      fs path = Csv (header :: data)
      /\ fst (read_csv fs path []) = Ok raw_df
      /\ columns df = dedup_names header
      /\ length (columns df) = length header
      /\ length (rows df) = length data
      /\ forall name,
          name <> u "tweeted_at" -> getitem df name = getitem raw_df name.
Proof.
  intros fs path log log' df Hload.
  destruct (header_line (fs path)) as [header0|] eqn:Hh;
    [|destruct (load_data_needs_header fs path log Hh) as [e He];
      rewrite Hload in He; discriminate].
  rewrite (load_data_stages fs path header0 log Hh) in Hload.
  destruct (missing_columns_of header0); [|discriminate].
  cbv zeta in Hload.
  destruct (fst (read_csv fs path [])) as [raw_df|e] eqn:Hraw; [|discriminate].
  destruct (getitem raw_df (u "tweeted_at")) as [raw_col|e] eqn:Hget;
    cbn [bind] in Hload; [|discriminate].
  destruct (to_datetime raw_col) as [col|e] eqn:Hconv; [|discriminate].
  inversion Hload; subst df log'; clear Hload.
  destruct (read_csv_rows fs path raw_df Hraw) as [_ [header [data [Hfs _]]]].
  destruct (read_csv_length fs path header data raw_df Hfs Hraw) as [Hc Hr].
  pose proof (Forall2_length (to_datetime_converted raw_col col Hconv)) as Hl.
  pose proof (getitem_length raw_df _ raw_col Hget) as Hl'.
  pose proof Hget as Hget'. unfold getitem in Hget'.
  destruct (index_of (u "tweeted_at") (columns raw_df)) as [i|] eqn:Hi;
    [|discriminate].
  assert (Hcols : columns (setitem raw_df (u "tweeted_at") col)
                  = dedup_names header).
  { unfold setitem. rewrite Hi. exact Hc. }
  exists header, data, raw_df. split; [exact Hfs | split; [reflexivity|]].
  split; [exact Hcols | split; [|split]].
  - rewrite Hcols. apply dedup_names_length.
  - unfold setitem. rewrite Hi. cbn [rows].
    rewrite length_zip_replaced; lia.
  - intros name Hne. apply (getitem_setitem_other raw_df _ name i col Hi);
      [lia | exact Hne].
Qed.

Lemma load_data_preserves_table_witness :
  exists df,
    load_data (PD := sample_pandas) repeated_fs (u "bookmarks.csv") []
    = (Ok df, [ReadHeader (u "bookmarks.csv"); ReadAll (u "bookmarks.csv")])
    /\ columns df
       = [u "tweeted_at"; u "screen_name"; u "full_text"; u "full_text.1"]
    /\ length (rows df) = 1%nat
    /\ getitem df (u "screen_name") = Ok [CStr (u "user1")].
Proof.
  destruct (load_data (PD := sample_pandas) repeated_fs (u "bookmarks.csv") [])
    as [[df|e] log'] eqn:E; [|vm_compute in E; discriminate].
  assert (Hlog : log' = [ReadHeader (u "bookmarks.csv");
                         ReadAll (u "bookmarks.csv")])
    by (vm_compute in E; inversion E; reflexivity).
  subst log'. exists df. split; [reflexivity|].
  destruct (@load_data_preserves_table sample_pandas repeated_fs
              (u "bookmarks.csv") [] _ df E)
    as [header [data [raw_df [Hfs [Hraw [Hc [_ [Hr Hother]]]]]]]].
  vm_compute in Hfs. injection Hfs as Hh Hd.
  rewrite <- Hh in Hc. rewrite <- Hd in Hr.
  vm_compute in Hraw. injection Hraw as Hrw. rewrite <- Hrw in Hother.
  split; [rewrite Hc; vm_compute; reflexivity | split; [exact Hr|]].
  rewrite Hother; [vm_compute; reflexivity | vm_compute; discriminate].
Defined.

(** X4: [load_data] reads nothing but the resource it is given, at most
    twice: the header first, and the whole file only when the header
    holds every required column; a call that stops after the header
    read has raised. *)
Theorem load_data_reads {PD : Pandas} :
  forall (fs : filesystem) (path : pystr) (log : list io_event),
    (snd (load_data fs path log) = log ++ [ReadHeader path]
     /\ exists e, fst (load_data fs path log) = Raise e)
    \/ (snd (load_data fs path log)
        = log ++ [ReadHeader path; ReadAll path]
        /\ exists header,
            header_line (fs path) = Some header
            /\ forall col, In col REQUIRED_COLUMNS -> In col header).
Proof.
  intros fs path log.
  destruct (header_line (fs path)) as [header|] eqn:Hh.
  - rewrite (load_data_stages fs path header log Hh).
    destruct (missing_columns_of header) eqn:Hm.
    + right. split.
      * cbv zeta. rewrite <- app_assoc. cbn [app].
        destruct (fst (read_csv fs path [])); [|reflexivity].
        destruct (bind _ to_datetime); reflexivity.
      * exists header. split; [reflexivity|].
        now apply missing_columns_empty.
    + left. cbn [fst snd]. eauto.
  - left. unfold header_line in Hh.
    destruct (fs path) as [| e0 | [|header data] | h e0] eqn:Hfs;
      try discriminate.
    + destruct (load_data_without_header fs path log) as [H _].
      rewrite (H Hfs). cbn [fst snd]. eauto.
    + destruct (load_data_without_header fs path log) as [_ [_ H]].
      rewrite (H e0 Hfs). cbn [fst snd]. eauto.
    + destruct (load_data_without_header fs path log) as [_ [H _]].
      rewrite (H Hfs). cbn [fst snd]. eauto.
Qed.

(** ** More on validation and the chart builders *)

Lemma missing_filter_nil (cols required : list pystr) :
  filter (fun col => negb (mem col cols)) required = []
  <-> forall c, In c required -> In c cols.
Proof.
  split.
  - intros E c Hc. apply mem_In. destruct (mem c cols) eqn:M; [reflexivity|].
    assert (H : In c (filter (fun col => negb (mem col cols)) required)).
    { apply filter_In. split; [exact Hc | now rewrite M]. }
    rewrite E in H. destruct H.
  - intros H. destruct (filter _ required) as [|c l] eqn:E; [reflexivity|].
    assert (Hc : In c (filter (fun col => negb (mem col cols)) required))
      by (rewrite E; now left).
    apply filter_In in Hc. destruct Hc as [Hin Hm].
    apply H, mem_In in Hin. rewrite Hin in Hm. discriminate.
Qed.

(** X5: [validate_dataframe] returns normally exactly on a DataFrame
    that has every required column.  Otherwise it raises a [TypeError]
    when the argument is no DataFrame (whatever the required columns)
    and a [ValueError] when it is one and lacks a required column. *)
Theorem validate_dataframe_ok_iff :
  forall (df : pyobj) (required_columns : list pystr),
    (validate_dataframe df required_columns = Ok tt
     <-> exists d, df = ObjDataFrame d
                   /\ forall c, In c required_columns -> In c (columns d))
    /\ (forall e,
           validate_dataframe df required_columns = Raise e ->
           (exn_cls e = TypeError /\ forall d, df <> ObjDataFrame d)
           \/ (exn_cls e = ValueError
               /\ exists d c, df = ObjDataFrame d
                              /\ In c required_columns
                              /\ ~ In c (columns d))).
Proof.
  intros df required_columns.
  destruct df as [x | l | l | l | ks | d];
    try (split;
         [split; [discriminate | intros [d [H _]]; discriminate]
         | intros e H; inversion H; left; split;
           [reflexivity | intros d Hd; discriminate]]).
  unfold validate_dataframe.
  destruct (filter _ required_columns) as [|c l] eqn:E.
  - split; [|discriminate]. split; [|reflexivity].
    intros _. exists d. split; [reflexivity|]. now apply missing_filter_nil.
  - split.
    + split; [discriminate|]. intros [d' [Hd H]]. inversion Hd; subst d'.
      apply missing_filter_nil in H. congruence.
    + intros e H. inversion H. right. split; [reflexivity|].
      assert (Hc : In c (filter (fun col => negb (mem col (columns d)))
                           required_columns)) by (rewrite E; now left).
      apply filter_In in Hc. destruct Hc as [Hin Hm].
      exists d, c. split; [reflexivity | split; [exact Hin|]].
      now apply mem_false_not_In, negb_true_iff.
Qed.

Section MoreChartFacts.
Context {PD : Pandas} {PL : Plotting}.

Lemma validate_missing_one (d : DataFrame) (name : pystr) :
  mem name (columns d) = false ->
  validate_dataframe (ObjDataFrame d) [name]
  = Raise (mkExn ValueError
             (u "必要なカラムが存在しません: " ++ repr_list [name])).
Proof. intros H. unfold validate_dataframe. simpl. now rewrite H. Qed.

Lemma validate_present_one (d : DataFrame) (name : pystr) :
  mem name (columns d) = true ->
  validate_dataframe (ObjDataFrame d) [name] = Ok tt.
Proof. intros H. unfold validate_dataframe. simpl. now rewrite H. Qed.

Lemma validate_not_frame (df : pyobj) (required : list pystr) :
  (forall d, df <> ObjDataFrame d) ->
  validate_dataframe df required
  = Raise (mkExn TypeError (u "入力はpandas.DataFrameである必要があります")).
Proof.
  intros H. destruct df; try reflexivity. exfalso. eapply H. reflexivity.
Qed.
End MoreChartFacts.

(** X6: a chart builder given something that is no DataFrame raises
    the [TypeError] of the validation, and given a DataFrame without
    its column ([tweeted_at], [category]) the [ValueError] of the
    validation naming the column; both reach the caller as raised,
    whatever the charting calls would do. *)
Theorem chart_builders_validation_failures {PD : Pandas} {PL : Plotting} :
  forall (df : pyobj),
    ((forall d, df <> ObjDataFrame d) ->
     create_time_series_plot df
     = Raise (mkExn TypeError (u "入力はpandas.DataFrameである必要があります"))
     /\ create_category_plot df
        = Raise (mkExn TypeError
                   (u "入力はpandas.DataFrameである必要があります")))
    /\ (forall d,
           df = ObjDataFrame d ->
           (mem (u "tweeted_at") (columns d) = false ->
            create_time_series_plot df
            = Raise (mkExn ValueError
                       (u "必要なカラムが存在しません: ['tweeted_at']")))
           /\ (mem (u "category") (columns d) = false ->
               create_category_plot df
               = Raise (mkExn ValueError
                          (u "必要なカラムが存在しません: ['category']")))).
Proof.
  intros df. split.
  - intros Hno.
    unfold create_time_series_plot, create_category_plot, time_series_try,
      category_try.
    rewrite !(validate_not_frame df _ Hno). split; reflexivity.
  - intros d -> . split; intros Hm.
    + unfold create_time_series_plot, time_series_try.
      rewrite (validate_missing_one d _ Hm). reflexivity.
    + unfold create_category_plot, category_try.
      rewrite (validate_missing_one d _ Hm). reflexivity.
Qed.

Lemma chart_builders_validation_failures_witness :
  create_time_series_plot (PD := pandas_without_ResampleError)
    (PL := sample_plotting) wrong_frame
  = Raise (mkExn ValueError (u "必要なカラムが存在しません: ['tweeted_at']"))
  /\ create_category_plot (PL := sample_plotting) wrong_frame
     = Raise (mkExn ValueError (u "必要なカラムが存在しません: ['category']"))
  /\ create_category_plot (PL := sample_plotting) (ObjDict [u "category"])
     = Raise (mkExn TypeError (u "入力はpandas.DataFrameである必要があります")).
Proof.
  destruct (@chart_builders_validation_failures pandas_without_ResampleError
              sample_plotting wrong_frame) as [_ H].
  destruct (H _ eq_refl) as [H1 H2].
  destruct (@chart_builders_validation_failures pandas_without_ResampleError
              sample_plotting (ObjDict [u "category"])) as [H3 _].
  split; [exact (H1 eq_refl) | split; [exact (H2 eq_refl)|]].
  apply H3. intros d Hd. discriminate.
Defined.

(** X7: a chart builder returns a figure exactly when its argument is
    a DataFrame with the builder's column for which the charting call
    returns one, and then it returns that figure. *)
Theorem chart_builders_success {PD : Pandas} {PL : Plotting} :
  forall (df : pyobj) (fig : Figure),
    (create_time_series_plot df = Ok fig
     <-> exists d, df = ObjDataFrame d
                   /\ In (u "tweeted_at") (columns d)
                   /\ daily_counts_line d = Ok fig)
    /\ (create_category_plot df = Ok fig
        <-> exists d, df = ObjDataFrame d
                      /\ In (u "category") (columns d)
                      /\ category_counts_pie d = Ok fig).
Proof.
  intros df fig.
  assert (Hgen : forall (name : pystr) (k : DataFrame -> result Figure)
                        (r : result Figure),
    (r = match bind (validate_dataframe df [name]) (fun _ => on_frame df k)
         with Ok f => Ok f | Raise e => r end) ->
    (forall e, bind (validate_dataframe df [name]) (fun _ => on_frame df k)
               = Raise e -> r <> Ok fig) ->
    (r = Ok fig
     <-> exists d, df = ObjDataFrame d /\ In name (columns d) /\ k d = Ok fig)).
  { intros name k r Hr Hraise.
    destruct df as [x | l | l | l | ks | d];
      try (split; [intros H; exfalso; eapply Hraise; [reflexivity | exact H]
                  | intros [d [Hd _]]; discriminate]).
    destruct (mem name (columns d)) eqn:M.
    - rewrite (validate_present_one d name M) in Hr, Hraise.
      cbn [bind on_frame] in Hr, Hraise. split.
      + intros H. exists d. split; [reflexivity|]. split; [now apply mem_In|].
        destruct (k d) as [f|e]; [congruence|].
        exfalso. eapply Hraise; [reflexivity | exact H].
      + intros [d' [Hd [_ Hk]]]. inversion Hd; subst d'.
        rewrite Hk in Hr. exact Hr.
    - rewrite (validate_missing_one d name M) in Hraise. split.
      + intros H. exfalso. eapply Hraise; [reflexivity | exact H].
      + intros [d' [Hd [Hin _]]]. inversion Hd; subst d'.
        apply mem_In in Hin. congruence. }
  split.
  - apply Hgen.
    + unfold create_time_series_plot, time_series_try.
      destruct (bind _ _); reflexivity.
    + intros e He. unfold create_time_series_plot, time_series_try.
      rewrite He.
      destruct (isinstance_exn e TypeError || isinstance_exn e ValueError);
        [discriminate|].
      destruct errors_ResampleError as [c|]; [|discriminate].
      destruct (isinstance_exn e c); discriminate.
  - apply Hgen.
    + unfold create_category_plot, category_try.
      destruct (bind _ _); reflexivity.
    + intros e He. unfold create_category_plot, category_try. rewrite He.
      destruct (isinstance_exn e TypeError || isinstance_exn e ValueError);
        discriminate.
Qed.

Lemma wrapped_is_ValueError (e : exn) (msg : pystr) :
  isinstance_exn
    (if isinstance_exn e TypeError || isinstance_exn e ValueError
     then e else mkExn ValueError msg) TypeError
  || isinstance_exn
       (if isinstance_exn e TypeError || isinstance_exn e ValueError
        then e else mkExn ValueError msg) ValueError = true.
Proof.
  destruct (isinstance_exn e TypeError || isinstance_exn e ValueError) eqn:E;
    [exact E | reflexivity].
Qed.

(** X8: whatever [create_category_plot] or [get_top_words] raises is a
    [TypeError] or a [ValueError]; so is whatever
    [create_time_series_plot] raises once the class
    [pd.errors.ResampleError] its handler names is resolved. *)
Theorem builders_raise_only_TypeError_ValueError
        {UCD : Unicode} {SEG : Segmenter} {PD : Pandas} {PL : Plotting} :
  forall (e : exn),
    (forall df, create_category_plot df = Raise e ->
                isinstance_exn e TypeError || isinstance_exn e ValueError
                = true)
    /\ (forall texts n tech_only,
           get_top_words texts n tech_only = Raise e ->
           isinstance_exn e TypeError || isinstance_exn e ValueError = true)
    /\ (forall df resample_error,
           errors_ResampleError = Some resample_error ->
           create_time_series_plot df = Raise e ->
           isinstance_exn e TypeError || isinstance_exn e ValueError = true).
Proof.
  intros e. split; [|split].
  - intros df. unfold create_category_plot.
    destruct (category_try df) as [fig|e0]; [discriminate|].
    intros H.
    pose proof (wrapped_is_ValueError e0
                  (u "予期せぬエラーが発生しました: " ++ exn_str e0)) as W.
    destruct (isinstance_exn e0 TypeError || isinstance_exn e0 ValueError);
      inversion H; subst e; exact W.
  - intros texts n tech_only. unfold get_top_words.
    destruct (top_words_try texts n tech_only) as [r|e0]; [discriminate|].
    intros H.
    pose proof (wrapped_is_ValueError e0
                  (u "予期せぬエラーが発生しました: " ++ exn_str e0)) as W.
    destruct (isinstance_exn e0 TypeError || isinstance_exn e0 ValueError);
      inversion H; subst e; exact W.
  - intros df resample_error Hr. unfold create_time_series_plot. rewrite Hr.
    destruct (time_series_try df) as [fig|e0]; [discriminate|].
    intros H.
    destruct (isinstance_exn e0 TypeError || isinstance_exn e0 ValueError)
      eqn:E.
    + inversion H; subst e; exact E.
    + destruct (isinstance_exn e0 resample_error); inversion H; reflexivity.
Qed.

Lemma builders_raise_only_TypeError_ValueError_witness :
  create_time_series_plot (PD := sample_pandas) (PL := sample_plotting)
    empty_frame
  = Raise (mkExn ValueError (u "予期せぬエラーが発生しました: nothing to plot"))
  /\ isinstance_exn
       (mkExn ValueError (u "予期せぬエラーが発生しました: nothing to plot"))
       TypeError
     || isinstance_exn
          (mkExn ValueError (u "予期せぬエラーが発生しました: nothing to plot"))
          ValueError = true.
Proof.
  assert (E : create_time_series_plot (PD := sample_pandas)
                (PL := sample_plotting) empty_frame
              = Raise (mkExn ValueError
                         (u "予期せぬエラーが発生しました: nothing to plot")))
    by (vm_compute; reflexivity).
  split; [exact E|].
  destruct (@builders_raise_only_TypeError_ValueError sample_unicode
              sample_segmenter sample_pandas sample_plotting
              (mkExn ValueError
                 (u "予期せぬエラーが発生しました: nothing to plot")))
    as [_ [_ H]].
  exact (H empty_frame (OtherError "ResampleError") eq_refl E).
Defined.

(** X9: when [pandas.errors] has no attribute [ResampleError], a
    failure inside [create_time_series_plot] that is neither a
    [TypeError] nor a [ValueError] reaches the caller as the
    [AttributeError] of the handler's own class expression, not as a
    [ValueError]; the message of the failure is not in it. *)
Theorem time_series_handler_name_unresolved {PD : Pandas} {PL : Plotting} :
  forall (df : pyobj) (e : exn),
    errors_ResampleError = None ->
    time_series_try df = Raise e ->
    isinstance_exn e TypeError || isinstance_exn e ValueError = false ->
    create_time_series_plot df
    = Raise (mkExn AttributeError
               (u "module 'pandas.errors' has no attribute 'ResampleError'"))
    /\ isinstance_exn
         (mkExn AttributeError
            (u "module 'pandas.errors' has no attribute 'ResampleError'"))
         ValueError = false.
Proof.
  intros df e Hr Htry Hkind. split; [|reflexivity].
  apply orb_false_iff in Hkind. destruct Hkind as [Ht Hv].
  now apply (create_time_series_plot_unresolved_handler df e).
Qed.

Lemma time_series_handler_name_unresolved_witness :
  time_series_try (PL := sample_plotting) empty_frame
  = Raise (mkExn RuntimeError (u "nothing to plot"))
  /\ create_time_series_plot (PD := pandas_without_ResampleError)
       (PL := sample_plotting) empty_frame
     = Raise (mkExn AttributeError
                (u "module 'pandas.errors' has no attribute 'ResampleError'")).
Proof.
  split; [reflexivity|].
  apply (@time_series_handler_name_unresolved pandas_without_ResampleError
           sample_plotting empty_frame
           (mkExn RuntimeError (u "nothing to plot")));
    reflexivity.
Defined.

(** ** The categorisation step of [main] *)











(** ** More on the word-frequency analyser *)

Section MoreTopWordsFacts.
Context {UCD : Unicode} {SEG : Segmenter}.

Lemma filter_idem {A} (p : A -> bool) (l : list A) :
  filter p (filter p l) = filter p l.
Proof.
  induction l as [|x l IH]; simpl; [reflexivity|].
  destruct (p x) eqn:E; simpl; [rewrite E, IH|]; auto.
Qed.

Lemma flat_map_guarded_filter {A B} (p : A -> bool) (f : A -> list B)
      (l : list A) :
  flat_map (fun x => if p x then f x else []) (filter p l)
  = flat_map (fun x => if p x then f x else []) l.
Proof.
  induction l as [|x l IH]; simpl; [reflexivity|].
  destruct (p x) eqn:E; simpl; [rewrite E, IH|]; auto.
Qed.

Lemma top_words_try_on (l : list scalar) (texts : pyobj) (n : Z)
      (tech_only : bool) :
  l <> [] -> iter_texts texts = l -> is_sequence texts = true ->
  top_words_try texts n tech_only
  = match strip (join (u " ") (map py_str (filter pd_notna l))) with
    | [] => Raise (mkExn ValueError (u "有効なテキストが存在しません"))
    | _ :: _ =>
        bind (MeCab_Tagger (u "-Owakati")) (fun parse =>
        bind base_stop_words (fun stop_words =>
        Ok (dict (most_common n
                    (Counter (kept_words tech_only
                                (stop_words ++ TWITTER_STOP_WORDS)
                                (flat_map
                                   (fun text =>
                                      if pd_notna text
                                      then split (parse (_preprocess_text
                                                           (py_str text)))
                                      else []) l)))))))
    end.
Proof.
  intros Hne Hl Hseq. unfold top_words_try, tokenize. rewrite Hl.
  assert (Hval : _validate_input texts = Ok tt).
  { destruct texts as [x | l0 | l0 | l0 | ks | df]; try discriminate;
      simpl in Hl; subst l; destruct l0; solve [congruence | reflexivity]. }
  rewrite Hval. cbn [bind]. destruct (strip _); [reflexivity|]. cbv zeta.
  destruct (MeCab_Tagger (u "-Owakati")); [|reflexivity]. cbn [bind].
  destruct base_stop_words; [|reflexivity]. cbn [bind].
  unfold kept_words. destruct tech_only; reflexivity.
Qed.
End MoreTopWordsFacts.

(** X11: null entries are skipped: as long as a non-null entry is
    left, [get_top_words] gives on a list (or Series) what it gives on
    the same list without its [None] and [NaN] entries. *)
Theorem get_top_words_skips_nulls {UCD : Unicode} {SEG : Segmenter} :
  forall (l : list scalar) (n : Z) (tech_only : bool),
    filter pd_notna l <> [] ->
    get_top_words (ObjList l) n tech_only
    = get_top_words (ObjList (filter pd_notna l)) n tech_only
    /\ get_top_words (ObjSeries l) n tech_only
       = get_top_words (ObjSeries (filter pd_notna l)) n tech_only.
Proof.
  intros l n tech_only Hne.
  assert (Hl : l <> []) by (intros ->; now apply Hne).
  unfold get_top_words.
  rewrite (top_words_try_on l (ObjList l) n tech_only Hl eq_refl eq_refl).
  rewrite (top_words_try_on l (ObjSeries l) n tech_only Hl eq_refl eq_refl).
  rewrite (top_words_try_on (filter pd_notna l) (ObjList (filter pd_notna l))
             n tech_only Hne eq_refl eq_refl).
  rewrite (top_words_try_on (filter pd_notna l)
             (ObjSeries (filter pd_notna l)) n tech_only Hne eq_refl eq_refl).
  rewrite filter_idem.
  destruct (strip _); [split; reflexivity|].
  destruct (MeCab_Tagger (u "-Owakati")) as [parse|e]; cbn [bind];
    [|split; reflexivity].
  destruct base_stop_words as [base|e]; cbn [bind]; [|split; reflexivity].
  rewrite (flat_map_guarded_filter pd_notna
             (fun text => split (parse (_preprocess_text (py_str text))))).
  split; reflexivity.
Qed.

Lemma get_top_words_skips_nulls_witness :
  get_top_words sample_texts 2 false
  = get_top_words
      (ObjList [ SStr (u "プログラミング 言語 の Python について");
                 SStr (u "Python で データ 分析 を する");
                 SStr (u "機械学習 と Python プログラミング 2023") ])
      2 false.
Proof.
  apply (@get_top_words_skips_nulls sample_unicode sample_segmenter
           [ SStr (u "プログラミング 言語 の Python について");
             SStr (u "Python で データ 分析 を する");
             SNaN;
             SStr (u "機械学習 と Python プログラミング 2023") ] 2 false).
  discriminate.
Defined.

(** X12: a limit that is zero or negative gives the empty mapping, not
    an error: on a sequence with a usable text, with the tagger built
    and the stop words loaded, [get_top_words] returns [{}]. *)
Theorem get_top_words_nonpositive_limit {UCD : Unicode} {SEG : Segmenter} :
  forall (texts : pyobj) (n : Z) (tech_only : bool)
         (parse : pystr -> pystr) (base : list pystr),
    (n <= 0)%Z ->
    is_sequence texts = true ->
    existsb usable (iter_texts texts) = true ->
    MeCab_Tagger (u "-Owakati") = Ok parse ->
    base_stop_words = Ok base ->
    get_top_words texts n tech_only = Ok [].
Proof.
  intros texts n tech_only parse base Hn Hseq Huse Htag Hbase.
  apply get_top_words_ok.
  rewrite (top_words_try_valid texts n tech_only parse base Hseq Huse
             Htag Hbase).
  unfold most_common. replace (Z.to_nat n) with O by lia. reflexivity.
Qed.

Lemma get_top_words_nonpositive_limit_witness :
  get_top_words sample_texts 0 false = Ok []
  /\ get_top_words sample_texts (-3) true = Ok [].
Proof.
  split.
  - apply (@get_top_words_nonpositive_limit sample_unicode sample_segmenter
             sample_texts 0 false (fun text => text) []);
      solve [lia | vm_compute; reflexivity].
  - apply (@get_top_words_nonpositive_limit sample_unicode sample_segmenter
             sample_texts (-3) true (fun text => text) []);
      solve [lia | vm_compute; reflexivity].
Defined.

(** X13: a smaller limit cuts the same ranking shorter: for [n <= m]
    the mapping returned for the limit [n] is the first [n] entries of
    the mapping returned for [m]. *)
Theorem get_top_words_limit_prefix {UCD : Unicode} {SEG : Segmenter} :
  forall (texts : pyobj) (n m : Z) (tech_only : bool)
         (result_n result_m : counter),
    (n <= m)%Z ->
    get_top_words texts n tech_only = Ok result_n ->
    get_top_words texts m tech_only = Ok result_m ->
    result_n = firstn (Z.to_nat n) result_m.
Proof.
  intros texts n m tech_only result_n result_m Hnm Hn Hm.
  apply get_top_words_ok, top_words_try_inv in Hn, Hm.
  destruct Hn as [_ [_ [parse [base [Htag [Hbase Hn]]]]]].
  destruct Hm as [_ [_ [parse' [base' [Htag' [Hbase' Hm]]]]]].
  rewrite Htag in Htag'. rewrite Hbase in Hbase'.
  inversion Htag'; inversion Hbase'; subst parse' base' result_n result_m.
  unfold most_common. rewrite firstn_firstn.
  f_equal. lia.
Qed.

Lemma get_top_words_limit_prefix_witness :
  get_top_words sample_texts 2 false
  = Ok [ (u "プログラミング", 2%Z); (u "言語", 1%Z) ]
  /\ [ (u "プログラミング", 2%Z); (u "言語", 1%Z) ]
     = firstn 2 [ (u "プログラミング", 2%Z); (u "言語", 1%Z);
                  (u "について", 1%Z); (u "データ", 1%Z);
                  (u "分析", 1%Z); (u "機械学習", 1%Z) ].
Proof.
  assert (E2 : get_top_words sample_texts 2 false
               = Ok [ (u "プログラミング", 2%Z); (u "言語", 1%Z) ])
    by (vm_compute; reflexivity).
  assert (E50 : get_top_words sample_texts 50 false
                = Ok [ (u "プログラミング", 2%Z); (u "言語", 1%Z);
                       (u "について", 1%Z); (u "データ", 1%Z);
                       (u "分析", 1%Z); (u "機械学習", 1%Z) ])
    by (vm_compute; reflexivity).
  split; [exact E2|].
  exact (@get_top_words_limit_prefix sample_unicode sample_segmenter
           sample_texts 2 50 false _ _ ltac:(lia) E2 E50).
Defined.

Section TokenFacts.
Context {UCD : Unicode}.

Lemma split_from_tokens (cur s : pystr) :
  forallb (fun c => negb (isspace c)) cur = true ->
  Forall (fun w => w <> [] /\ forallb (fun c => negb (isspace c)) w = true)
         (split_from cur s).
Proof.
  revert cur; induction s as [|c s IH]; intros cur Hcur; simpl.
  - destruct cur as [|x cur]; constructor; [|constructor].
    split.
    + intros E. apply (f_equal (@length N)) in E.
      rewrite length_rev in E. discriminate.
    + rewrite forallb_rev. exact Hcur.
  - destruct (isspace c) eqn:E.
    + destruct cur as [|x cur]; [now apply IH|].
      constructor; [|now apply IH]. split.
      * intros E'. apply (f_equal (@length N)) in E'.
        rewrite length_rev in E'. discriminate.
      * rewrite forallb_rev. exact Hcur.
    + apply IH. simpl. now rewrite E.
Qed.

(** The words [split()] returns are not empty and hold no whitespace. *)
Lemma split_tokens (s : pystr) :
  Forall (fun w => w <> [] /\ forallb (fun c => negb (isspace c)) w = true)
         (split s).
Proof. now apply split_from_tokens. Qed.

Lemma tokenize_tokens (parse : pystr -> pystr) (texts : pyobj) (w : pystr) :
  In w (tokenize parse texts) ->
  w <> [] /\ forallb (fun c => negb (isspace c)) w = true.
Proof.
  unfold tokenize. rewrite in_flat_map. intros [text [_ Hw]].
  destruct (pd_notna text); [|destruct Hw].
  pose proof (split_tokens (parse (_preprocess_text (py_str text)))) as H.
  rewrite Forall_forall in H. now apply H.
Qed.
End TokenFacts.

(** X14: in either mode the keys of the returned mapping are pairwise
    distinct, and each is a token of the texts that is longer than one
    character, holds no whitespace and is not made of digits only. *)
Theorem get_top_words_keys {UCD : Unicode} {SEG : Segmenter} :
  forall (texts : pyobj) (n : Z) (tech_only : bool) (result : counter),
    get_top_words texts n tech_only = Ok result ->
    NoDup (keys result)
    /\ exists parse,
        MeCab_Tagger (u "-Owakati") = Ok parse
        /\ forall w,
            In w (keys result) ->
            In w (tokenize parse texts)
            /\ (1 < length w)%nat
            /\ forallb (fun c => negb (isspace c)) w = true
            /\ str_isdigit w = false.
Proof.
  intros texts n tech_only result H.
  apply get_top_words_ok, top_words_try_inv in H.
  destruct H as [_ [_ [parse [base [Htag [_ Hres]]]]]]. subst result.
  split.
  - apply NoDup_keys_most_common, Counter_spec.
  - exists parse. split; [exact Htag|].
    intros w Hw. unfold keys in Hw. apply in_map_iff in Hw.
    destruct Hw as [[w' c] [Hfst Hwc]]. simpl in Hfst. subst w'.
    apply In_most_common in Hwc. unfold kept_words in Hwc.
    apply In_counted in Hwc. destruct Hwc as [Hin [Hkeep _]].
    split; [exact Hin|].
    destruct (tokenize_tokens parse texts w Hin) as [_ Hns].
    destruct tech_only.
    + unfold keep_tech in Hkeep.
      rewrite !andb_true_iff, Nat.ltb_lt, negb_true_iff in Hkeep. tauto.
    + unfold keep_default in Hkeep.
      rewrite !andb_true_iff, Nat.ltb_lt, !negb_true_iff in Hkeep. tauto.
Qed.

Lemma get_top_words_keys_witness :
  get_top_words cased_texts 50 true
  = Ok [ (u "Python", 2%Z); (u "docker", 1%Z) ]
  /\ NoDup (keys [ (u "Python", 2%Z); (u "docker", 1%Z) ]).
Proof.
  assert (E : get_top_words cased_texts 50 true
              = Ok [ (u "Python", 2%Z); (u "docker", 1%Z) ])
    by (vm_compute; reflexivity).
  split; [exact E|].
  exact (proj1 (@get_top_words_keys sample_unicode sample_segmenter
                  cased_texts 50 true _ E)).
Defined.

Section TotalFacts.

Lemma total_counter_incr (w : pystr) (c : counter) :
  total (counter_incr w c) = (total c + 1)%Z.
Proof.
  induction c as [|[k v] c IH]; simpl; [reflexivity|].
  destruct (pystr_eqb k w); simpl; [|rewrite IH]; lia.
Qed.

Lemma total_Counter (words : list pystr) :
  total (Counter words) = Z.of_nat (length words).
Proof.
  induction words as [|w words IH] using rev_ind; [reflexivity|].
  rewrite Counter_snoc, total_counter_incr, IH, length_app. simpl. lia.
Qed.

Lemma total_perm (l l' : counter) : Permutation l l' -> total l = total l'.
Proof.
  induction 1; simpl; lia.
Qed.

Lemma total_app (l l' : counter) : total (l ++ l') = (total l + total l')%Z.
Proof. induction l as [|x l IH]; simpl; lia. Qed.

Lemma total_nonneg (l : counter) :
  Forall (fun kv => (1 <= snd kv)%Z) l -> (0 <= total l)%Z.
Proof. induction 1; simpl; lia. Qed.

Lemma Counter_positive (words : list pystr) :
  Forall (fun kv => (1 <= snd kv)%Z) (Counter words).
Proof.
  apply Forall_forall. intros [w c] H. apply In_Counter in H.
  destruct H as [Hin ->]. simpl. now apply occurrences_pos.
Qed.

Lemma total_most_common (n : Z) (c : counter) :
  Forall (fun kv => (1 <= snd kv)%Z) c ->
  (total (most_common n c) <= total c)%Z.
Proof.
  intros Hpos. unfold most_common.
  rewrite <- (total_perm _ _ (sorted_desc_perm c)).
  rewrite <- (firstn_skipn (Z.to_nat n) (sorted_desc c)) at 2.
  rewrite total_app.
  assert (0 <= total (skipn (Z.to_nat n) (sorted_desc c)))%Z; [|lia].
  apply total_nonneg. apply Forall_forall. intros kv Hkv.
  rewrite Forall_forall in Hpos. apply Hpos.
  eapply Permutation_in; [apply sorted_desc_perm|].
  rewrite <- (firstn_skipn (Z.to_nat n) (sorted_desc c)).
  apply in_or_app. now right.
Qed.
End TotalFacts.

Lemma keys_fold_counter_incr (words : list pystr) (c : counter) :
  keys (fold_left (fun c w => counter_incr w c) words c)
  = keys c ++ first_occurrences (keys c) words.
Proof.
  revert c; induction words as [|w words IH]; intros c; simpl.
  - now rewrite app_nil_r.
  - rewrite IH, keys_counter_incr.
    destruct (mem w (keys c)); [reflexivity|].
    now rewrite <- app_assoc.
Qed.

(** The keys of [Counter(words)] are the distinct words in the order
    of their first occurrence. *)
Lemma keys_Counter_first_occurrences (words : list pystr) :
  keys (Counter words) = first_occurrences [] words.
Proof. unfold Counter. now rewrite keys_fold_counter_incr. Qed.

(** X15: the counts of the returned mapping never add up to more than
    the number of tokens the filter kept; when the limit is at least
    the number of distinct kept tokens nothing is cut: every kept token
    is a key and the counts add up to exactly that number. *)
Theorem get_top_words_totals {UCD : Unicode} {SEG : Segmenter} :
  forall (texts : pyobj) (n : Z) (tech_only : bool) (result : counter),
    get_top_words texts n tech_only = Ok result ->
    exists parse base,
      MeCab_Tagger (u "-Owakati") = Ok parse
      /\ base_stop_words = Ok base
      /\ let kept := kept_words tech_only (base ++ TWITTER_STOP_WORDS)
                       (tokenize parse texts) in
         (total result <= Z.of_nat (length kept))%Z
         /\ ((Z.of_nat (length (first_occurrences [] kept)) <= n)%Z ->
             total result = Z.of_nat (length kept)
             /\ forall w, In w kept -> In w (keys result)).
Proof.
  intros texts n tech_only result H.
  apply get_top_words_ok, top_words_try_inv in H.
  destruct H as [_ [_ [parse [base [Htag [Hbase Hres]]]]]].
  exists parse, base. split; [exact Htag | split; [exact Hbase|]].
  cbv zeta. set (kept := kept_words _ _ _) in *. subst result. split.
  - rewrite <- total_Counter. apply total_most_common, Counter_positive.
  - intros Hlimit.
    assert (Hperm : Permutation (most_common n (Counter kept)) (Counter kept)).
    { apply most_common_all.
      replace (length (Counter kept)) with (length (keys (Counter kept)))
        by apply length_map.
      now rewrite keys_Counter_first_occurrences. }
    split.
    + now rewrite (total_perm _ _ Hperm), total_Counter.
    + intros w Hw. unfold keys.
      eapply Permutation_in;
        [apply Permutation_map, Permutation_sym, Hperm|].
      apply Counter_spec. exact Hw.
Qed.

Lemma get_top_words_totals_witness :
  get_top_words tied_texts 50 false
  = Ok [ (u "分析", 2%Z); (u "データ", 2%Z); (u "言語", 1%Z);
         (u "機械学習", 1%Z) ]
  /\ (total [ (u "分析", 2%Z); (u "データ", 2%Z); (u "言語", 1%Z);
              (u "機械学習", 1%Z) ] <= 6)%Z.
Proof.
  assert (E : get_top_words tied_texts 50 false
              = Ok [ (u "分析", 2%Z); (u "データ", 2%Z); (u "言語", 1%Z);
                     (u "機械学習", 1%Z) ])
    by (vm_compute; reflexivity).
  split; [exact E|].
  destruct (@get_top_words_totals sample_unicode sample_segmenter
              tied_texts 50 false _ E) as [parse [base [Ht [Hb [Hle _]]]]].
  vm_compute in Ht. injection Ht as Ht. rewrite <- Ht in Hle.
  vm_compute in Hb. injection Hb as Hb. rewrite <- Hb in Hle.
  exact Hle.
Defined.

(** X16: on a sequence with a usable text, a failure of
    [MeCab.Tagger], or a failure of [stopwords.words] that is no
    [LookupError], that is neither a [TypeError] nor a [ValueError]
    makes [get_top_words] raise a [ValueError] whose message ends with
    the failure's; the stop words are loaded, and can fail the call, in
    the tech-only mode too. *)
Theorem get_top_words_wraps_external_failures
        {UCD : Unicode} {SEG : Segmenter} :
  forall (texts : pyobj) (n : Z) (tech_only : bool) (e : exn),
    is_sequence texts = true ->
    existsb usable (iter_texts texts) = true ->
    isinstance_exn e TypeError || isinstance_exn e ValueError = false ->
    (MeCab_Tagger (u "-Owakati") = Raise e
     \/ ((exists parse, MeCab_Tagger (u "-Owakati") = Ok parse)
         /\ stopwords_words (u "japanese") = Raise e
         /\ isinstance_exn e LookupError = false)) ->
    get_top_words texts n tech_only
    = Raise (mkExn ValueError
               (u "予期せぬエラーが発生しました: " ++ exn_str e)).
Proof.
  intros texts n tech_only e Hseq Huse Hkind Hfail.
  assert (Htry : top_words_try texts n tech_only = Raise e).
  { unfold top_words_try.
    assert (Hval : _validate_input texts = Ok tt).
    { destruct texts as [x | l | l | l | ks | df]; try discriminate;
        destruct l; try discriminate; reflexivity. }
    rewrite Hval. cbn [bind].
    destruct (strip _) eqn:Hstrip.
    { apply strip_all_text in Hstrip. congruence. }
    cbv zeta. destruct Hfail as [Htag | [[parse Htag] [Hsw Hlook]]].
    - rewrite Htag. reflexivity.
    - rewrite Htag. cbn [bind]. unfold base_stop_words.
      rewrite Hsw, Hlook. reflexivity. }
  unfold get_top_words. now rewrite Htry, Hkind.
Qed.

Lemma get_top_words_wraps_external_failures_witness :
  get_top_words (SEG := no_dictionary_segmenter) sample_texts 50 false
  = Raise (mkExn ValueError
             (u "予期せぬエラーが発生しました: no such file or directory: mecabrc"))
  /\ get_top_words (SEG := no_language_segmenter) sample_texts 50 true
     = Raise (mkExn ValueError
                (u "予期せぬエラーが発生しました: No such file or directory: japanese")).
Proof.
  pose proof (@get_top_words_wraps_external_failures sample_unicode
                no_dictionary_segmenter sample_texts 50 false
                (mkExn RuntimeError (u "no such file or directory: mecabrc"))
                eq_refl eq_refl eq_refl (or_introl eq_refl)) as H1.
  pose proof (@get_top_words_wraps_external_failures sample_unicode
                no_language_segmenter sample_texts 50 true
                (mkExn OSError (u "No such file or directory: japanese"))
                eq_refl eq_refl eq_refl
                (or_intror
                   (conj (ex_intro _ (fun text => text) eq_refl)
                         (conj eq_refl eq_refl)))) as H2.
  split.
  - rewrite H1. vm_compute. reflexivity.
  - rewrite H2. vm_compute. reflexivity.
Defined.

Section StableFacts.

Lemma with_count_insert_desc (c : Z) (x : pystr * Z) (l : counter) :
  with_count c (insert_desc x l) = with_count c (x :: l).
Proof.
  unfold with_count. induction l as [|y l IH]; [reflexivity|].
  cbn [insert_desc]. destruct (snd x <? snd y)%Z eqn:E; [|reflexivity].
  apply Z.ltb_lt in E. cbn [filter] in *. rewrite IH.
  destruct (snd x =? c)%Z eqn:Ex; [|reflexivity].
  apply Z.eqb_eq in Ex.
  assert (Ey : (snd y =? c)%Z = false) by (apply Z.eqb_neq; lia).
  now rewrite Ey.
Qed.

(** The sort is stable: entries with the same count keep their
    order. *)
Lemma with_count_sorted_desc (c : Z) (l : counter) :
  with_count c (sorted_desc l) = with_count c l.
Proof.
  induction l as [|x l IH]; [reflexivity|].
  cbn [sorted_desc]. rewrite with_count_insert_desc.
  unfold with_count in *. cbn [filter]. now rewrite IH.
Qed.

Lemma with_count_most_common (c n : Z) (l : counter) :
  exists rest,
    with_count c l = with_count c (most_common n l) ++ rest.
Proof.
  exists (with_count c (skipn (Z.to_nat n) (sorted_desc l))).
  unfold most_common. rewrite <- with_count_sorted_desc.
  unfold with_count. rewrite <- filter_app. now rewrite firstn_skipn.
Qed.
End StableFacts.

(** X17: ties are broken by first occurrence: the kept tokens are
    counted in the order in which they first occur, and the entries of
    the returned mapping that have one and the same count are, in
    order, the first of the counted entries with that count. *)
Theorem get_top_words_ties_first_occurrence
        {UCD : Unicode} {SEG : Segmenter} :
  forall (texts : pyobj) (n : Z) (tech_only : bool) (result : counter),
    get_top_words texts n tech_only = Ok result ->
    exists parse base,
      MeCab_Tagger (u "-Owakati") = Ok parse
      /\ base_stop_words = Ok base
      /\ let kept := kept_words tech_only (base ++ TWITTER_STOP_WORDS)
                       (tokenize parse texts) in
         keys (Counter kept) = first_occurrences [] kept
         /\ forall c, exists rest,
             with_count c (Counter kept) = with_count c result ++ rest.
Proof.
  intros texts n tech_only result H.
  apply get_top_words_ok, top_words_try_inv in H.
  destruct H as [_ [_ [parse [base [Htag [Hbase Hres]]]]]].
  exists parse, base. split; [exact Htag | split; [exact Hbase|]].
  cbv zeta. subst result. split.
  - apply keys_Counter_first_occurrences.
  - intros c. apply with_count_most_common.
Qed.

Lemma get_top_words_ties_first_occurrence_witness :
  get_top_words tied_texts 3 false
  = Ok [ (u "分析", 2%Z); (u "データ", 2%Z); (u "言語", 1%Z) ]
  /\ exists parse base,
      MeCab_Tagger (u "-Owakati") = Ok parse
      /\ base_stop_words = Ok base
      /\ keys (Counter (kept_words false (base ++ TWITTER_STOP_WORDS)
                          (tokenize parse tied_texts)))
         = first_occurrences []
             (kept_words false (base ++ TWITTER_STOP_WORDS)
                (tokenize parse tied_texts)).
Proof.
  assert (E : get_top_words tied_texts 3 false
              = Ok [ (u "分析", 2%Z); (u "データ", 2%Z); (u "言語", 1%Z) ])
    by (vm_compute; reflexivity).
  split; [exact E|].
  destruct (@get_top_words_ties_first_occurrence sample_unicode
              sample_segmenter tied_texts 3 false _ E)
    as [parse [base [Ht [Hb [Hk _]]]]].
  exists parse, base. auto.
Defined.

Section PreprocessFacts.
Context {UCD : Unicode}.

Lemma sub_urls_incl (st : url_state) (s : pystr) :
  incl (sub_urls st s) s /\ (length (sub_urls st s) <= length s)%nat.
Proof.
  revert st; induction s as [|c s IH]; intros st.
  - simpl. split; [apply incl_refl | lia].
  - assert (Hscan :
      incl (if url_starts (c :: s) then sub_urls (Drop 4) s
            else c :: sub_urls Scan s) (c :: s)
      /\ (length (if url_starts (c :: s) then sub_urls (Drop 4) s
                  else c :: sub_urls Scan s) <= length (c :: s))%nat).
    { destruct (url_starts (c :: s)).
      - destruct (IH (Drop 4)) as [A B]. split; [|simpl; lia].
        now apply incl_tl.
      - destruct (IH Scan) as [A B]. split; [|simpl; lia].
        apply incl_cons; [now left | now apply incl_tl]. }
    cbn [sub_urls]. cbv zeta. destruct st as [|[|k]].
    + exact Hscan.
    + destruct (isspace c); [exact Hscan|].
      destruct (IH (Drop 0)) as [A B]. split; [|simpl; lia].
      now apply incl_tl.
    + destruct (IH (Drop k)) as [A B]. split; [|simpl; lia].
      now apply incl_tl.
Qed.
End PreprocessFacts.

Section SubsequenceFacts.
Context {A : Type}.

Lemma subsequence_refl (l : list A) : subsequence l l.
Proof. induction l; constructor; assumption. Qed.

Lemma subsequence_trans (a b c : list A) :
  subsequence a b -> subsequence b c -> subsequence a c.
Proof.
  intros Hab Hbc. revert a Hab.
  induction Hbc as [|x b c Hbc IH|x b c Hbc IH]; intros a Hab.
  - exact Hab.
  - inversion Hab; subst.
    + apply subsequence_keep. now apply IH.
    + apply subsequence_drop. now apply IH.
  - apply subsequence_drop. now apply IH.
Qed.

Lemma subsequence_filter (p : A -> bool) (l : list A) :
  subsequence (filter p l) l.
Proof.
  induction l as [|x l IH]; simpl; [constructor|].
  destruct (p x); constructor; assumption.
Qed.
End SubsequenceFacts.

Lemma sub_urls_subsequence {UCD : Unicode} (st : url_state) (s : pystr) :
  subsequence (sub_urls st s) s.
Proof.
  revert st; induction s as [|c s IH]; intros st.
  - simpl. constructor.
  - assert (Hscan :
      subsequence (if url_starts (c :: s) then sub_urls (Drop 4) s
                   else c :: sub_urls Scan s) (c :: s)).
    { destruct (url_starts (c :: s)); constructor; apply IH. }
    cbn [sub_urls]. cbv zeta. destruct st as [|[|k]].
    + exact Hscan.
    + destruct (isspace c); [exact Hscan|]. constructor. apply IH.
    + constructor. apply IH.
Qed.

(** X18: [_preprocess_text] only deletes: its output is its input with
    some characters taken out, the others in their order, and it holds
    nothing but word characters and whitespace. *)
Theorem preprocess_text_only_deletes {UCD : Unicode} :
  forall (text : pystr),
    subsequence (_preprocess_text text) text
    /\ Forall (fun c => isalnum c = true \/ c = 95%N \/ isspace c = true)
              (_preprocess_text text).
Proof.
  intros text. unfold _preprocess_text. cbv zeta. split.
  - eapply subsequence_trans;
      [apply subsequence_filter | apply sub_urls_subsequence].
  - apply Forall_forall. intros c Hc. apply filter_In in Hc.
    destruct Hc as [_ Hc]. unfold is_word_or_space in Hc.
    rewrite !orb_true_iff, N.eqb_eq in Hc. tauto.
Qed.
